(** * Gift-Card-Wallet: the session and authenticated-request layer

    A shallow embedding of [src/services/api.ts] (the axios instance, its two
    interceptors and the service facades) and of [src/context/AuthContext.tsx]
    (bootstrap, signIn, signUp, signOut), followed by the properties of the
    specification that concern them.

    Asynchronous functions are written in a small free monad [Prog] whose
    nodes are the operations the JavaScript code awaits (an AsyncStorage call,
    an HTTP call) and the React state setters.  Two interpreters give them a
    meaning: [run] executes one operation to completion against a transport
    oracle, [exec] executes a pool of operations whose suspension points
    interleave along an explicit schedule.  AsyncStorage calls always
    succeed here; the only exceptions are axios errors. *)

From stdpp Require Import gmap strings list.

Local Open Scope string_scope.
Local Open Scope list_scope.
Local Open Scope nat_scope.
Local Open Scope stdpp_scope.

(** ** Data *)

(** Base URL for the API ([API_URL] in api.ts). *)
Definition API_URL : string := "http://10.0.2.2:8000".

Inductive Method := GET | POST | PUT.

(** [userData: any] of [signUp]/[register]: the two fields the session layer
    reads, and the remaining form fields. *)
Record UserData := mkUserData {
  username : string;
  password : string;
  fields : gmap string string
}.

(** Payload of a request: nothing, the literal [{}], a [FormData] (an ordered
    list of appended pairs), or a JSON object. *)
Inductive Body :=
| NoBody
| EmptyObject
| FormData (entries : list (string * string))
| Json (userData : UserData)
| JsonObject (obj : gmap string string).

(** An axios request config. *)
Record Config := mkConfig {
  method : Method;
  baseURL : string;
  url : string;
  headers : gmap string string;
  body : Body
}.

(** [response.data]: the two fields of a token response, and the rest of the
    JSON body (a profile, a list of cards, ...), which this layer never
    inspects. *)
Record Data := mkData {
  access_token : string;
  refresh_token : string;
  rest : string
}.

Record Response := mkResponse {
  status : nat;
  data : Data
}.

(** An axios error: the config of the failed request and, when the server
    answered, the response.  [response = None] is a network error. *)
Record AxiosError := mkError {
  config : Config;
  response : option Response
}.

(** What a settled axios call hands to the code that awaited it. *)
Definition Settled : Type := Response + AxiosError.

(** JavaScript truthiness of a [string | null]: [null] and the empty string
    are falsy. *)
Definition truthy (v : option string) : bool :=
  match v with
  | Some s => negb (String.eqb s "")
  | None => false
  end.

(** A [string | null] inside a template literal. *)
Definition interpolate (v : option string) : string := default "null" v.

(** [config.headers.Authorization = value]. *)
Definition set_Authorization (value : string) (c : Config) : Config :=
  mkConfig (method c) (baseURL c) (url c) (<["Authorization" := value]> (headers c)) (body c).

(** [error.response && error.response.status === 401]. *)
Definition is_401 (error : AxiosError) : bool :=
  match response error with
  | Some r => bool_decide (status r = 401)
  | None => false
  end.

(** ** Asynchronous programs *)

(** The React state of [AuthProvider]. *)
Record Session := mkSession {
  user : option Data;
  isLoading : bool;
  isSignedIn : bool
}.

(** An [async] function body.  [GetItem], [SetItem], [RemoveItem] and [Http]
    are awaited: the function is suspended there until the storage or the
    network answers.  The three setters are synchronous. *)
Inductive Prog (R : Type) : Type :=
| Ret (r : R)
| Throw (error : AxiosError)
| GetItem (key : string) (k : option string -> Prog R)
| SetItem (key value : string) (k : Prog R)
| RemoveItem (key : string) (k : Prog R)
| Http (request : Config) (k : Settled -> Prog R)
| SetUser (u : option Data) (k : Prog R)
| SetIsLoading (b : bool) (k : Prog R)
| SetIsSignedIn (b : bool) (k : Prog R).

Arguments Ret {R} r.
Arguments Throw {R} error.
Arguments GetItem {R} key k.
Arguments SetItem {R} key value k.
Arguments RemoveItem {R} key k.
Arguments Http {R} request k.
Arguments SetUser {R} u k.
Arguments SetIsLoading {R} b k.
Arguments SetIsSignedIn {R} b k.

(** [await p] followed by the rest of the function. *)
Fixpoint Prog_bind {A B : Type} (f : A -> Prog B) (p : Prog A) : Prog B :=
  match p with
  | Ret r => f r
  | Throw e => Throw e
  | GetItem key k => GetItem key (fun v => Prog_bind f (k v))
  | SetItem key value k => SetItem key value (Prog_bind f k)
  | RemoveItem key k => RemoveItem key (Prog_bind f k)
  | Http request k => Http request (fun s => Prog_bind f (k s))
  | SetUser u k => SetUser u (Prog_bind f k)
  | SetIsLoading b k => SetIsLoading b (Prog_bind f k)
  | SetIsSignedIn b k => SetIsSignedIn b (Prog_bind f k)
  end.

#[global] Instance Prog_mret : MRet Prog := @Ret.
#[global] Instance Prog_mbind : MBind Prog := @Prog_bind.

(** [try { p } catch (e) { h e }]. *)
Fixpoint try_catch {R : Type} (p : Prog R) (h : AxiosError -> Prog R) : Prog R :=
  match p with
  | Ret r => Ret r
  | Throw e => h e
  | GetItem key k => GetItem key (fun v => try_catch (k v) h)
  | SetItem key value k => SetItem key value (try_catch k h)
  | RemoveItem key k => RemoveItem key (try_catch k h)
  | Http request k => Http request (fun s => try_catch (k s) h)
  | SetUser u k => SetUser u (try_catch k h)
  | SetIsLoading b k => SetIsLoading b (try_catch k h)
  | SetIsSignedIn b k => SetIsSignedIn b (try_catch k h)
  end.

(** [try { p } finally { f }]: [f] runs on both exits, then the completion
    of [p] (value or exception) is restored. *)
Fixpoint try_finally {R : Type} (p : Prog R) (f : Prog unit) : Prog R :=
  match p with
  | Ret r => Prog_bind (fun _ => Ret r) f
  | Throw e => Prog_bind (fun _ => Throw e) f
  | GetItem key k => GetItem key (fun v => try_finally (k v) f)
  | SetItem key value k => SetItem key value (try_finally k f)
  | RemoveItem key k => RemoveItem key (try_finally k f)
  | Http request k => Http request (fun s => try_finally (k s) f)
  | SetUser u k => SetUser u (try_finally k f)
  | SetIsLoading b k => SetIsLoading b (try_finally k f)
  | SetIsSignedIn b k => SetIsSignedIn b (try_finally k f)
  end.

(** An [async] function that ends in [return promise] (not awaited): the body
    computes the promise, the function's own promise adopts it.  A rejection
    of the returned promise is outside every [try] of the body. *)
Definition adopt {R : Type} (p : Prog (Prog R)) : Prog R := Prog_bind (fun q => q) p.

(** ** AsyncStorage and axios *)

Module AsyncStorage.
Definition getItem (key : string) : Prog (option string) := GetItem key Ret.
Definition setItem (key value : string) : Prog unit := SetItem key value (Ret tt).
Definition removeItem (key : string) : Prog unit := RemoveItem key (Ret tt).
End AsyncStorage.

Module axios.
(** [axios(config)]: the promise resolves with the response or rejects with
    the error. *)
Definition request (c : Config) : Prog Response :=
  Http c (fun s => match s with inl r => Ret r | inr e => Throw e end).

(** [axios.post(url, data, { headers })] on the global instance. *)
Definition post (u : string) (d : Body) (h : gmap string string) : Prog Response :=
  request (mkConfig POST "" u h d).
End axios.

(** The instance built by [axios.create] in api.ts, with its interceptors. *)
Module api.
Definition defaults : gmap string string := {["Content-Type" := "application/json"]}.

(** Request interceptor to add auth token to requests. *)
Definition request_onFulfilled (config : Config) : Prog Config :=
  token ← AsyncStorage.getItem "token";
  if truthy token
  then mret (set_Authorization ("Bearer " +:+ interpolate token) config)
  else mret config.

Definition response_onFulfilled (response : Response) : Prog Response := mret response.

(** Response interceptor for error handling.  Both [return Promise.reject(error)]
    and [return axios(error.config)] return a promise without awaiting it,
    hence [adopt]. *)
Definition response_onRejected (error : AxiosError) : Prog Response :=
  if is_401 error then
    adopt (try_catch
      (refreshToken ← AsyncStorage.getItem "refreshToken";
       if negb (truthy refreshToken) then
         AsyncStorage.removeItem "token";;
         AsyncStorage.removeItem "refreshToken";;
         mret (Throw error)
       else
         response ← axios.post (API_URL +:+ "/auth/refresh") EmptyObject
                      {["Authorization" := "Bearer " +:+ interpolate refreshToken]};
         AsyncStorage.setItem "token" (access_token (data response));;
         AsyncStorage.setItem "refreshToken" (refresh_token (data response));;
         mret (axios.request
                 (set_Authorization ("Bearer " +:+ access_token (data response)) (config error))))
      (fun refreshError =>
         AsyncStorage.removeItem "token";;
         AsyncStorage.removeItem "refreshToken";;
         mret (Throw error)))
  else Throw error.

(** A call on the instance: request interceptor, dispatch, response
    interceptor. *)
Definition request (config : Config) : Prog Response :=
  config' ← request_onFulfilled config;
  Http config' (fun s => match s with
                         | inl response => response_onFulfilled response
                         | inr error => response_onRejected error
                         end).

Definition get (path : string) : Prog Response :=
  request (mkConfig GET API_URL path defaults NoBody).
Definition post (path : string) (d : Body) : Prog Response :=
  request (mkConfig POST API_URL path defaults d).
Definition put (path : string) (d : Body) : Prog Response :=
  request (mkConfig PUT API_URL path defaults d).
End api.

(** Authentication API services. *)
Module authService.
Definition login (username password : string) : Prog Data :=
  let formData := FormData [("username", username); ("password", password)] in
  response ← axios.post (API_URL +:+ "/auth/token") formData
               {["Content-Type" := "multipart/form-data"]};
  AsyncStorage.setItem "token" (access_token (data response));;
  AsyncStorage.setItem "refreshToken" (refresh_token (data response));;
  mret (data response).

Definition register (userData : UserData) : Prog Data :=
  response ← api.post "/auth/register" (Json userData);
  mret (data response).

Definition logout : Prog unit :=
  try_finally
    (api.post "/auth/logout" NoBody;; mret tt)
    (AsyncStorage.removeItem "token";;
     AsyncStorage.removeItem "refreshToken").

Definition isAuthenticated : Prog bool :=
  token ← AsyncStorage.getItem "token";
  mret (truthy token).
End authService.

(** User API services. *)
Module userService.
Definition getUserProfile : Prog Data :=
  response ← api.get "/users/me";
  mret (data response).

Definition updateUserProfile (userData : gmap string string) : Prog Data :=
  response ← api.put "/users/me" (JsonObject userData);
  mret (data response).
End userService.

(** [AuthProvider] of AuthContext.tsx.  [console.error] has no effect on the
    state modelled here and is left out. *)
Module AuthContext.
Definition setUser (u : option Data) : Prog unit := SetUser u (Ret tt).
Definition setIsLoading (b : bool) : Prog unit := SetIsLoading b (Ret tt).
Definition setIsSignedIn (b : bool) : Prog unit := SetIsSignedIn b (Ret tt).

(** [useState(null)], [useState(true)], [useState(false)]. *)
Definition initial : Session := mkSession None true false.

Definition loadUserProfile : Prog unit :=
  try_catch
    (userData ← userService.getUserProfile;
     setUser (Some userData))
    (fun error => Throw error).

Definition bootstrapAsync : Prog unit :=
  try_finally
    (try_catch
       (isAuthenticated ← authService.isAuthenticated;
        if isAuthenticated : bool then
          try_catch
            (loadUserProfile;;
             setIsSignedIn true)
            (fun error =>
               authService.logout;;
               setIsSignedIn false)
        else mret tt)
       (fun error => mret tt))
    (setIsLoading false).

Definition signIn (username password : string) : Prog unit :=
  try_finally
    (try_catch
       (setIsLoading true;;
        authService.login username password;;
        loadUserProfile;;
        setIsSignedIn true)
       (fun error => Throw error))
    (setIsLoading false).

Definition signUp (userData : UserData) : Prog unit :=
  try_finally
    (try_catch
       (setIsLoading true;;
        authService.register userData;;
        signIn (username userData) (password userData))
       (fun error => Throw error))
    (setIsLoading false).

Definition signOut : Prog unit :=
  try_finally
    (try_catch
       (setIsLoading true;;
        authService.logout;;
        setUser None;;
        setIsSignedIn false)
       (fun error => Throw error))
    (setIsLoading false).
End AuthContext.

(** ** The world and the two interpreters *)

(** A write reaching the durable store. *)
Inductive Write :=
| WSet (key value : string)
| WRemove (key : string).

(** Everything an operation can observe or change: the AsyncStorage
    contents, the requests handed to the transport (oldest first), the
    storage writes performed (oldest first), and the React state. *)
Record World := mkWorld {
  storage : gmap string string;
  network : list Config;
  journal : list Write;
  session : Session
}.

Definition store (key value : string) (w : World) : World :=
  mkWorld (<[key := value]> (storage w)) (network w) (journal w ++ [WSet key value]) (session w).

Definition remove (key : string) (w : World) : World :=
  mkWorld (delete key (storage w)) (network w) (journal w ++ [WRemove key]) (session w).

Definition dispatch (c : Config) (w : World) : World :=
  mkWorld (storage w) (network w ++ [c]) (journal w) (session w).

Definition with_session (f : Session -> Session) (w : World) : World :=
  mkWorld (storage w) (network w) (journal w) (f (session w)).

Definition set_user (u : option Data) (s : Session) : Session :=
  mkSession u (isLoading s) (isSignedIn s).
Definition set_isLoading (b : bool) (s : Session) : Session :=
  mkSession (user s) b (isSignedIn s).
Definition set_isSignedIn (b : bool) (s : Session) : Session :=
  mkSession (user s) (isLoading s) b.

(** axios' default [validateStatus]. *)
Definition validateStatus (s : nat) : bool := (200 <=? s) && (s <? 300).

(** How axios settles a call: no reply is a network error, a reply outside
    2xx an error carrying the response. *)
Definition settle (c : Config) (reply : option Response) : Settled :=
  match reply with
  | None => inr (mkError c None)
  | Some r => if validateStatus (status r) then inl r else inr (mkError c (Some r))
  end.

(** The transport and the server behind it: the reply to a request, given
    the requests dispatched before it.  [None] is "no response". *)
Definition Transport : Type := list Config -> Config -> option Response.

(** One operation run to completion, nothing else interleaved. *)
Fixpoint run {R : Type} (srv : Transport) (p : Prog R) (w : World) : World * (R + AxiosError) :=
  match p with
  | Ret r => (w, inl r)
  | Throw e => (w, inr e)
  | GetItem key k => run srv (k (storage w !! key)) w
  | SetItem key value k => run srv k (store key value w)
  | RemoveItem key k => run srv k (remove key w)
  | Http c k => run srv (k (settle c (srv (network w) c))) (dispatch c w)
  | SetUser u k => run srv k (with_session (set_user u) w)
  | SetIsLoading b k => run srv k (with_session (set_isLoading b) w)
  | SetIsSignedIn b k => run srv k (with_session (set_isSignedIn b) w)
  end.

(** An operation in flight, suspended at the node at its head (or settled,
    when the head is [Ret] or [Throw]). *)
Record Task := mkTask {
  result : Type;
  code : Prog result
}.

(** Run the synchronous part of a continuation: state setters take effect,
    an HTTP call is handed to the transport, and the operation then waits. *)
Fixpoint advance {R : Type} (p : Prog R) (w : World) : Prog R * World :=
  match p with
  | SetUser u k => advance k (with_session (set_user u) w)
  | SetIsLoading b k => advance k (with_session (set_isLoading b) w)
  | SetIsSignedIn b k => advance k (with_session (set_isSignedIn b) w)
  | Http c k => (Http c k, dispatch c w)
  | _ => (p, w)
  end.

(** The storage operation a task waits for completes: it takes effect on the
    store now, and the task runs on to its next suspension point.  A task
    that waits for something else is left alone. *)
Definition resume {R : Type} (p : Prog R) (w : World) : Prog R * World :=
  match p with
  | GetItem key k => advance (k (storage w !! key)) w
  | SetItem key value k => advance k (store key value w)
  | RemoveItem key k => advance k (remove key w)
  | _ => (p, w)
  end.

(** The reply to the HTTP call a task waits for arrives, and the task runs on
    to its next suspension point.  A task that waits for something else is
    left alone. *)
Definition deliver {R : Type} (reply : option Response) (p : Prog R) (w : World) : Prog R * World :=
  match p with
  | Http c k => advance (k (settle c reply)) w
  | _ => (p, w)
  end.

Record System := mkSystem {
  world : World;
  pool : list Task
}.

(** What the environment does next: complete the storage call of task [tid],
    or answer its HTTP call. *)
Inductive Event :=
| Resume (tid : nat)
| Respond (tid : nat) (reply : option Response).

(** Apply [f] to task [tid] and the world; no such task, no change. *)
Definition on_task (tid : nat) (f : forall R, Prog R -> World -> Prog R * World) (s : System) : System :=
  match pool s !! tid with
  | Some t =>
      let '(p, w) := f (result t) (code t) (world s) in
      mkSystem w (<[tid := mkTask (result t) p]> (pool s))
  | None => s
  end.

Definition react (ev : Event) (s : System) : System :=
  match ev with
  | Resume tid => on_task tid (@resume) s
  | Respond tid reply => on_task tid (fun R => @deliver R reply) s
  end.

(** The pool after the events of a schedule, in order.  Between two events
    nothing runs: JavaScript is single-threaded and a task only gives up
    control at an [await]. *)
Fixpoint exec (schedule : list Event) (s : System) : System :=
  match schedule with
  | [] => s
  | ev :: rest => exec rest (react ev s)
  end.

(** Calling an async function: it runs up to its first suspension point. *)
Definition spawn {R : Type} (p : Prog R) (s : System) : System :=
  let '(p', w) := advance p (world s) in
  mkSystem w (pool s ++ [mkTask R p']).

(** The schedule an operation induces when it runs alone as task 0 against
    the transport [srv]: one [Resume] per storage call, one [Respond] per HTTP
    call, carrying the reply [srv] gives to it. *)
Fixpoint script {R : Type} (srv : Transport) (p : Prog R) (w : World) : list Event :=
  match p with
  | Ret _ | Throw _ => []
  | GetItem key k => Resume 0 :: script srv (k (storage w !! key)) w
  | SetItem key value k => Resume 0 :: script srv k (store key value w)
  | RemoveItem key k => Resume 0 :: script srv k (remove key w)
  | Http c k =>
      Respond 0 (srv (network w) c)
        :: script srv (k (settle c (srv (network w) c))) (dispatch c w)
  | SetUser u k => script srv k (with_session (set_user u) w)
  | SetIsLoading b k => script srv k (with_session (set_isLoading b) w)
  | SetIsSignedIn b k => script srv k (with_session (set_isSignedIn b) w)
  end.

(** A settled operation. *)
Definition settled {R : Type} (outcome : R + AxiosError) : Prog R :=
  match outcome with
  | inl r => Ret r
  | inr e => Throw e
  end.

(** ** Vocabulary of the specification *)

(** The code has no error class of its own: what the specification calls
    [AuthExpired] reaches the caller as the rejection with an axios error
    whose response has status 401. *)
Definition AuthExpired (e : AxiosError) : Prop := is_401 e = true.

(** The session state the UI derives from the two flags of [AuthProvider]:
    the spinner while [isLoading], the main stack when [isSignedIn], the auth
    stack otherwise (AppNavigator.tsx). *)
Inductive SessionState := Unauthenticated | Loading | Authenticated.

Definition sessionState (s : Session) : SessionState :=
  if isLoading s then Loading
  else if isSignedIn s then Authenticated
  else Unauthenticated.

(** The token store holds a pair / holds nothing / holds exactly one of the
    two tokens. *)
Definition tokens (w : World) : option string * option string :=
  (storage w !! "token", storage w !! "refreshToken").

Definition cleared (w : World) : Prop := tokens w = (None, None).

Definition partial_pair (w : World) : bool :=
  xorb (bool_decide (is_Some (storage w !! "token")))
       (bool_decide (is_Some (storage w !! "refreshToken"))).

(** The refresh call of the response interceptor. *)
Definition refresh_url : string := API_URL +:+ "/auth/refresh".

(** The config the response interceptor posts to the refresh endpoint. *)
Definition refresh_request (refreshToken : option string) : Config :=
  mkConfig POST "" refresh_url {["Authorization" := "Bearer " +:+ interpolate refreshToken]} EmptyObject.

(** The config the response interceptor replays after a successful refresh. *)
Definition replay_request (error : AxiosError) (refreshed : Response) : Config :=
  set_Authorization ("Bearer " +:+ access_token (data refreshed)) (config error).

(** How the refresh attempt of the response interceptor settles in world [w]:
    [None] when no usable refresh token is stored (no call is made). *)
Definition refresh_outcome (srv : Transport) (w : World) : option Settled :=
  let refreshToken := storage w !! "refreshToken" in
  if truthy refreshToken
  then Some (settle (refresh_request refreshToken) (srv (network w) (refresh_request refreshToken)))
  else None.

Definition refresh_failed (srv : Transport) (w : World) : Prop :=
  match refresh_outcome srv w with
  | Some (inl _) => False
  | _ => True
  end.

Definition is_refresh (c : Config) : bool := bool_decide (url c = refresh_url).

Definition refresh_calls (w : World) : nat := length (filter (fun c => is_refresh c = true) (network w)).

(** The requests the service facades build. *)
Definition login_url : string := API_URL +:+ "/auth/token".

Definition register_config (userData : UserData) : Config :=
  mkConfig POST API_URL "/auth/register" api.defaults (Json userData).

Definition profile_config : Config :=
  mkConfig GET API_URL "/users/me" api.defaults NoBody.

Definition logout_config : Config :=
  mkConfig POST API_URL "/auth/logout" api.defaults NoBody.

Definition login_config (username password : string) : Config :=
  mkConfig POST "" login_url {["Content-Type" := "multipart/form-data"]}
    (FormData [("username", username); ("password", password)]).

(** What the request interceptor makes of a config in world [w]. *)
Definition outgoing (c : Config) (w : World) : Config :=
  let token := storage w !! "token" in
  if truthy token then set_Authorization ("Bearer " +:+ interpolate token) c else c.

(** ** Observing a pool *)

(** How a task stands: [None] while suspended, [Some None] once resolved,
    [Some (Some e)] once rejected with [e]. *)
Definition settlement (t : Task) : option (option AxiosError) :=
  match code t with
  | Ret _ => Some None
  | Throw e => Some (Some e)
  | _ => None
  end.

(** The HTTP call a task waits for, if it waits for one. *)
Definition waiting_for (t : Task) : option Config :=
  match code t with
  | Http c _ => Some c
  | _ => None
  end.

(** The storage call a task waits for, if it waits for one. *)
Definition pending_write (t : Task) : option Write :=
  match code t with
  | SetItem key value _ => Some (WSet key value)
  | RemoveItem key _ => Some (WRemove key)
  | _ => None
  end.

(** The rest of an operation suspended at a storage read, once the read has
    returned [v]. *)
Definition after_read {R : Type} (p : Prog R) (v : option string) : Prog R :=
  match p with
  | GetItem _ k => k v
  | _ => p
  end.

(** The rest of an operation suspended at an HTTP call, once the call has
    settled with [s]. *)
Definition after_answer {R : Type} (p : Prog R) (s : Settled) : Prog R :=
  match p with
  | Http _ k => k s
  | _ => p
  end.

(** The error handler of the response interceptor at its second suspension
    point: it has read [refreshToken] from storage and waits for the answer
    to its refresh call. *)
Definition refreshing (error : AxiosError) (refreshToken : option string) : Prog Response :=
  after_read (api.response_onRejected error) refreshToken.

Arguments refreshing : simpl never.

(** Requests that have each come back with an error: the handler of each is
    called, in order. *)
Fixpoint handlers (errors : list AxiosError) (s : System) : System :=
  match errors with
  | [] => s
  | error :: rest => handlers rest (spawn (api.response_onRejected error) s)
  end.

Definition is_resume (ev : Event) : bool :=
  match ev with
  | Resume _ => true
  | Respond _ _ => false
  end.

(** The pairs of writes of which a journal of token writes must consist when
    the access token is always written, or removed, before the refresh token. *)
Fixpoint token_then_refreshToken (ws : list Write) : bool :=
  match ws with
  | [] => true
  | WSet k1 _ :: WSet k2 _ :: rest =>
      String.eqb k1 "token" && String.eqb k2 "refreshToken" && token_then_refreshToken rest
  | WRemove k1 :: WRemove k2 :: rest =>
      String.eqb k1 "token" && String.eqb k2 "refreshToken" && token_then_refreshToken rest
  | _ => false
  end.

(** The state of [N] handlers between their 401 and the first answer to a
    refresh call: the handlers in [sent] have read the refresh token and wait
    for the answer to their own refresh call, the others have not run yet;
    the storage is untouched, and one refresh call per handler in [sent] is
    on the wire. *)
Definition refresh_phase (errors : list AxiosError) (w : World) (rt : string)
    (sent : gset nat) (s : System) : Prop :=
  storage (world s) = storage w /\
  session (world s) = session w /\
  network (world s) = network w ++ replicate (size sent) (refresh_request (Some rt)) /\
  (forall i, i ∈ sent -> i < length errors) /\
  length (pool s) = length errors /\
  (forall i error, errors !! i = Some error ->
     pool s !! i = Some (mkTask Response
                           (if decide (i ∈ sent)
                            then refreshing error (Some rt)
                            else api.response_onRejected error))).

(** ** Concrete scenarios *)

Module Scenario.
Definition alice : Data := mkData "" "" "{user_id: u1, username: alice}".
Definition unauthorized : Response := mkResponse 401 (mkData "" "" "{detail: Unauthorized}").
Definition success (d : Data) : Response := mkResponse 200 d.
Definition minted (access refresh : string) : Response := success (mkData access refresh "").

(** A signed-in user holding the pair (A1, R1); a fresh install. *)
Definition signed_in : World :=
  mkWorld {["token" := "A1"; "refreshToken" := "R1"]} [] [] (mkSession (Some alice) false true).
Definition signed_out : World :=
  mkWorld ∅ [] [] (mkSession None false false).

(** Two requests of the card screens, and the 401 errors they come back with. *)
Definition card : Config := mkConfig GET API_URL "/gift-cards/42" api.defaults NoBody.
Definition vendors : Config := mkConfig GET API_URL "/vendors" api.defaults NoBody.
Definition card_expired : AxiosError := mkError (outgoing card signed_in) (Some unauthorized).
Definition vendors_expired : AxiosError := mkError (outgoing vendors signed_in) (Some unauthorized).

(** A newcomer's registration form. *)
Definition bob : UserData :=
  mkUserData "bob" "Secret123" {["email" := "bob@example.com"; "first_name" := "Bob"]}.

(** Transports. *)
Definition offline : Transport := fun _ _ => None.
Definition rejects_everything : Transport := fun _ _ => Some unauthorized.
(** Mints (A2, R2) on refresh and rejects every other request. *)
Definition refreshes_then_rejects : Transport :=
  fun _ c => if is_refresh c then Some (minted "A2" "R2") else Some unauthorized.
(** Accepts the login with the pair (A1, R1) and rejects everything else,
    the refresh call included. *)
Definition login_only : Transport :=
  fun _ c => if bool_decide (url c = login_url) then Some (minted "A1" "R1") else Some unauthorized.
(** Accepts the login, then the profile endpoint breaks down. *)
Definition profile_down : Transport :=
  fun _ c => if bool_decide (url c = login_url) then Some (minted "A1" "R1")
             else Some (mkResponse 500 (mkData "" "" "{detail: Internal Server Error}")).
(** Scenario 4 of the specification: two requests are in flight together and
    both come back with 401 before either handler has run. *)
Definition two_expired : System :=
  exec [Resume 0; Resume 1; Respond 0 (Some unauthorized); Respond 1 (Some unauthorized)]
    (spawn (api.request vendors) (spawn (api.request card) (mkSystem signed_in []))).

(** Both handlers read the refresh token; the server answers the first
    refresh with a new pair and, having rotated the refresh token, rejects
    the second; the first request is replayed and served. *)
Definition two_refreshes : System :=
  exec [Resume 0; Resume 1;
        Respond 0 (Some (minted "A2" "R2")); Resume 0; Resume 0;
        Respond 1 (Some unauthorized); Resume 1; Resume 1;
        Respond 0 (Some (success alice))]
    two_expired.

(** Scenario 5 of the specification: a request comes back with 401 and its
    handler has sent the refresh call ... *)
Definition refresh_pending : System :=
  exec [Resume 0; Respond 0 (Some unauthorized); Resume 0]
    (spawn (api.request card) (mkSystem signed_in [])).

(** ... the user signs out, and the logout call is served ... *)
Definition signed_out_meanwhile : System :=
  exec [Resume 1; Respond 1 (Some (success (mkData "" "" ""))); Resume 1; Resume 1]
    (spawn AuthContext.signOut refresh_pending).

(** ... and only then the refresh call is answered, with a new pair, and the
    replayed request is served. *)
Definition refresh_after_signOut : System :=
  exec [Respond 0 (Some (minted "A2" "R2")); Resume 0; Resume 0; Respond 0 (Some (success alice))]
    signed_out_meanwhile.

(** Scenario 1 of the specification, stopped between the two writes of
    [login]. *)
Definition login_half_stored : System :=
  exec [Respond 0 (Some (minted "A1" "R1")); Resume 0]
    (spawn (AuthContext.signIn "alice" "Secret123") (mkSystem signed_out [])).
End Scenario.

(** ** The remaining facades and their callers *)

(** ['front' | 'back']. *)
Inductive ImageType := front | back.

Definition ImageType_string (imageType : ImageType) : string :=
  match imageType with
  | front => "front"
  | back => "back"
  end.

(** Gift Card API services: the calls that take no query parameters. *)
Module giftCardService.
Definition getGiftCard (cardId : string) : Prog Data :=
  response ← api.get ("/gift-cards/" +:+ cardId);
  mret (data response).

(** An [async] function without an [await]: it resolves at once. *)
Definition getGiftCardImage (cardId : string) (imageType : ImageType) : Prog string :=
  mret (API_URL +:+ "/gift-cards/" +:+ cardId +:+ "/images/" +:+ ImageType_string imageType).
End giftCardService.

(** Vendor API services. *)
Module vendorService.
Definition getVendor (vendorId : string) : Prog Data :=
  response ← api.get ("/vendors/" +:+ vendorId);
  mret (data response).

Definition getVendorLogo (vendorId : string) : string :=
  API_URL +:+ "/vendors/" +:+ vendorId +:+ "/logo".
End vendorService.

(** [validate] of LoginScreen.tsx, on the two fields of the form: the error
    object it hands to [setErrors], and its verdict
    [Object.keys(newErrors).length === 0]. *)
Module LoginScreen.
Definition newErrors (username password : string) : gmap string string :=
  let errors : gmap string string := ∅ in
  let errors := if negb (truthy (Some username))
                then <["username" := "Username is required"]> errors else errors in
  let errors := if negb (truthy (Some password))
                then <["password" := "Password is required"]> errors else errors in
  errors.

Definition validate (username password : string) : bool :=
  bool_decide (size (newErrors username password) = 0).
End LoginScreen.

(** An operation keeps the token pair whole: run on its own, from any world
    and against any server, it leaves the storage as it was or leaves it with
    both tokens or neither. *)
Definition keeps_pair {R : Type} (p : Prog R) : Prop :=
  forall (srv : Transport) (w : World),
    storage (run srv p w).1 = storage w \/ partial_pair (run srv p w).1 = false.

(** Servers for the examples that follow. *)
Module Servers.
(** Accepts every login with (A1, R1), every refresh with (A2, R2), and
    serves every other request. *)
Definition healthy : Transport :=
  fun _ c =>
    if bool_decide (url c = login_url) then Some (Scenario.minted "A1" "R1")
    else if is_refresh c then Some (Scenario.minted "A2" "R2")
    else Some (Scenario.success Scenario.alice).

(** As [healthy], but the access token A1 has expired: a request carrying it
    is answered 401. *)
Definition expired : Transport :=
  fun _ c =>
    if bool_decide (headers c !! "Authorization" = Some "Bearer A1")
    then Some Scenario.unauthorized
    else healthy [] c.

(** Answers every request with 500. *)
Definition broken : Transport :=
  fun _ _ => Some (mkResponse 500 (mkData "" "" "{detail: Internal Server Error}")).
End Servers.

(** ** Basic facts about the interpreters *)

Section Run.
Context (srv : Transport).

Lemma run_bind {A B : Type} (f : A -> Prog B) (p : Prog A) (w : World) :
  run srv (Prog_bind f p) w =
  match run srv p w with
  | (w', inl r) => run srv (f r) w'
  | (w', inr e) => (w', inr e)
  end.
Proof.
  revert w; induction p as [r|e|key k IH|key value k IH|key k IH|c k IH|u k IH|b k IH|b k IH];
    intros w; simpl; auto.
Qed.

Lemma run_mbind {A B : Type} (f : A -> Prog B) (p : Prog A) (w : World) :
  run srv (p ≫= f) w =
  match run srv p w with
  | (w', inl r) => run srv (f r) w'
  | (w', inr e) => (w', inr e)
  end.
Proof. apply run_bind. Qed.

Lemma run_try_catch {R : Type} (p : Prog R) (h : AxiosError -> Prog R) (w : World) :
  run srv (try_catch p h) w =
  match run srv p w with
  | (w', inl r) => (w', inl r)
  | (w', inr e) => run srv (h e) w'
  end.
Proof.
  revert w; induction p as [r|e|key k IH|key value k IH|key k IH|c k IH|u k IH|b k IH|b k IH];
    intros w; simpl; auto.
Qed.

Lemma run_try_finally {R : Type} (p : Prog R) (f : Prog unit) (w : World) :
  run srv (try_finally p f) w =
  match run srv p w with
  | (w', outcome) =>
      match run srv f w' with
      | (w'', inl _) => (w'', outcome)
      | (w'', inr e) => (w'', inr e)
      end
  end.
Proof.
  revert w; induction p as [r|e|key k IH|key value k IH|key k IH|c k IH|u k IH|b k IH|b k IH];
    intros w; simpl; auto; rewrite run_bind; destruct (run srv f w) as [w' [[]|e']]; reflexivity.
Qed.

(** A rethrowing [catch] changes nothing. *)
Lemma run_rethrow {R : Type} (p : Prog R) (w : World) :
  run srv (try_catch p (fun error => Throw error)) w = run srv p w.
Proof.
  rewrite run_try_catch. destruct (run srv p w) as [w' [r|e]]; reflexivity.
Qed.

(** The React setters take effect at once. *)
Lemma run_setIsLoading (b : bool) (w : World) :
  run srv (AuthContext.setIsLoading b) w = (with_session (set_isLoading b) w, inl tt).
Proof. reflexivity. Qed.

Lemma run_setIsLoading_then {R : Type} (b : bool) (p : Prog R) (w : World) :
  run srv (AuthContext.setIsLoading b;; p) w = run srv p (with_session (set_isLoading b) w).
Proof. reflexivity. Qed.

Lemma run_setIsSignedIn (b : bool) (w : World) :
  run srv (AuthContext.setIsSignedIn b) w = (with_session (set_isSignedIn b) w, inl tt).
Proof. reflexivity. Qed.

Lemma run_setUser (u : option Data) (w : World) :
  run srv (AuthContext.setUser u) w = (with_session (set_user u) w, inl tt).
Proof. reflexivity. Qed.

End Run.

(** ** The response interceptor, case by case *)

Section Interceptor.
Context (srv : Transport).

(** The complete behaviour of the error handler of the response interceptor,
    run on its own. *)
Lemma run_response_onRejected (error : AxiosError) (w : World) :
  run srv (api.response_onRejected error) w =
  if is_401 error then
    let refreshToken := storage w !! "refreshToken" in
    match refresh_outcome srv w with
    | None => (remove "refreshToken" (remove "token" w), inr error)
    | Some (inr _) =>
        (remove "refreshToken" (remove "token" (dispatch (refresh_request refreshToken) w)),
         inr error)
    | Some (inl refreshed) =>
        let w1 := store "refreshToken" (refresh_token (data refreshed))
                    (store "token" (access_token (data refreshed))
                       (dispatch (refresh_request refreshToken) w)) in
        let replay := replay_request error refreshed in
        (dispatch replay w1, settle replay (srv (network w1) replay))
    end
  else (w, inr error).
Proof.
  unfold api.response_onRejected, refresh_outcome.
  destruct (is_401 error); [|reflexivity].
  simpl. destruct (truthy (storage w !! "refreshToken")); simpl; [|reflexivity].
  change (API_URL +:+ "/auth/refresh") with refresh_url.
  fold (refresh_request (storage w !! "refreshToken")).
  destruct (settle _ _) as [refreshed|e]; simpl; [|reflexivity].
  fold (replay_request error refreshed).
  destruct (settle _ _); reflexivity.
Qed.

(** The complete behaviour of a call on the [api] instance. *)
Lemma run_api_request (c : Config) (w : World) :
  run srv (api.request c) w =
  match settle (outgoing c w) (srv (network w) (outgoing c w)) with
  | inl response => (dispatch (outgoing c w) w, inl response)
  | inr error => run srv (api.response_onRejected error) (dispatch (outgoing c w) w)
  end.
Proof.
  unfold api.request, api.request_onFulfilled, outgoing. simpl.
  destruct (truthy (storage w !! "token")); simpl;
    destruct (settle _ _); reflexivity.
Qed.

End Interceptor.

(** ** Refresh without a refresh token, and refresh failure *)

Section RefreshFailure.
Context (srv : Transport).

Lemma refresh_outcome_None (w : World) :
  truthy (storage w !! "refreshToken") = false -> refresh_outcome srv w = None.
Proof. unfold refresh_outcome. intros ->. reflexivity. Qed.

Lemma cleared_remove_both (w : World) :
  cleared (remove "refreshToken" (remove "token" w)).
Proof.
  unfold cleared, tokens, remove; simpl. f_equal.
  - rewrite lookup_delete_ne by discriminate. apply lookup_delete_eq.
  - apply lookup_delete_eq.
Qed.

(** C4. A request that comes back with 401 while no refresh token is stored
    (the key is absent, or holds the empty string) is rejected with that 401
    error, [AuthExpired] in the specification's words, and the handler makes
    no network call: the only request on the wire is the request itself. *)
Theorem no_refresh_token_fails_without_network_call (c : Config) (w : World) (r : Response) :
  srv (network w) (outgoing c w) = Some r ->
  status r = 401 ->
  truthy (storage w !! "refreshToken") = false ->
  exists w',
    run srv (api.request c) w = (w', inr (mkError (outgoing c w) (Some r))) /\
    AuthExpired (mkError (outgoing c w) (Some r)) /\
    network w' = network w ++ [outgoing c w].
Proof.
  intros Hreply Hstatus Hnone.
  assert (H401 : is_401 (mkError (outgoing c w) (Some r)) = true).
  { unfold is_401; simpl. rewrite Hstatus. reflexivity. }
  exists (remove "refreshToken" (remove "token" (dispatch (outgoing c w) w))).
  rewrite run_api_request, Hreply. unfold settle, validateStatus.
  rewrite Hstatus. simpl.
  rewrite run_response_onRejected, H401.
  rewrite (refresh_outcome_None (dispatch (outgoing c w) w)) by exact Hnone.
  repeat split; try reflexivity. exact H401.
Qed.

(** C2, as the code has it.  When the refresh attempt fails (no usable refresh
    token, or the refresh call is rejected or gets no answer) the handler
    removes both tokens and rejects with the original 401 error; the request
    is not replayed (at most the refresh call went out); the React session
    state is left exactly as it was. *)
Theorem refresh_failure_clears_tokens_and_rejects (error : AxiosError) (w : World) :
  is_401 error = true ->
  refresh_failed srv w ->
  exists w',
    run srv (api.response_onRejected error) w = (w', inr error) /\
    AuthExpired error /\
    cleared w' /\
    session w' = session w /\
    network w' = network w ++
      (if truthy (storage w !! "refreshToken")
       then [refresh_request (storage w !! "refreshToken")] else []).
Proof.
  intros H401 Hfail. rewrite run_response_onRejected, H401.
  unfold refresh_failed in Hfail. unfold refresh_outcome in *.
  destruct (truthy (storage w !! "refreshToken")).
  - destruct (settle _ _) as [?|e]; [contradiction|].
    eexists; repeat split; try reflexivity; [exact H401|apply cleared_remove_both].
  - eexists; repeat split; try reflexivity; [exact H401|apply cleared_remove_both|].
    simpl. symmetry. apply app_nil_r.
Qed.

End RefreshFailure.

(** C4 at a concrete input: a fresh install whose request is answered 401. *)
Lemma no_refresh_token_fails_without_network_call_witness :
  exists w',
    run Scenario.rejects_everything (api.request Scenario.card) Scenario.signed_out
      = (w', inr (mkError (outgoing Scenario.card Scenario.signed_out) (Some Scenario.unauthorized))) /\
    AuthExpired (mkError (outgoing Scenario.card Scenario.signed_out) (Some Scenario.unauthorized)) /\
    network w' = network Scenario.signed_out ++ [outgoing Scenario.card Scenario.signed_out].
Proof.
  apply (no_refresh_token_fails_without_network_call Scenario.rejects_everything
           Scenario.card Scenario.signed_out Scenario.unauthorized);
    reflexivity.
Defined.

(** C2 at a concrete input: the refresh call itself is answered 401. *)
Lemma refresh_failure_clears_tokens_and_rejects_witness :
  exists w',
    run Scenario.rejects_everything (api.response_onRejected Scenario.card_expired) Scenario.signed_in
      = (w', inr Scenario.card_expired) /\
    AuthExpired Scenario.card_expired /\
    cleared w' /\
    session w' = session Scenario.signed_in /\
    network w' = network Scenario.signed_in ++
      (if truthy (storage Scenario.signed_in !! "refreshToken")
       then [refresh_request (storage Scenario.signed_in !! "refreshToken")] else []).
Proof.
  apply (refresh_failure_clears_tokens_and_rejects Scenario.rejects_everything
           Scenario.card_expired Scenario.signed_in).
  - reflexivity.
  - vm_compute. exact I.
Defined.

(** C2 as stated fails: scenario 3 of the specification.  A signed-in user's
    request is answered 401 and so is the refresh call; the tokens are
    removed and the caller gets the 401 error, but the session state is
    still [Authenticated]. *)
Lemma refresh_failure_session_counterexample :
  let '(w', outcome) :=
    run Scenario.rejects_everything (api.request Scenario.card) Scenario.signed_in in
  outcome = inr Scenario.card_expired /\
  refresh_calls w' = 1 /\
  cleared w' /\
  sessionState (session w') = Authenticated /\
  sessionState (session w') <> Unauthenticated.
Proof. vm_compute. repeat split; discriminate. Qed.

(** ** The replay *)

Section Replay.
Context (srv : Transport).

(** The handler never hands more than two requests to the transport: at most
    one refresh call and at most one replay. *)
Lemma response_onRejected_network_bound (error : AxiosError) (w : World) :
  exists extra,
    network (run srv (api.response_onRejected error) w).1 = network w ++ extra /\
    length extra <= 2.
Proof.
  rewrite run_response_onRejected.
  destruct (is_401 error); [|exists []; simpl; split; [by rewrite app_nil_r|lia]].
  destruct (refresh_outcome srv w) as [[refreshed|e]|] eqn:E; simpl.
  - eexists [_; _]. split; [|simpl; lia]. by rewrite <- app_assoc.
  - eexists [_]. split; [reflexivity|simpl; lia].
  - exists []. split; [by rewrite app_nil_r|simpl; lia].
Qed.

(** What the handler hands to the transport, exactly: nothing, its refresh
    call, or its refresh call and one replay. *)
Lemma response_onRejected_network (error : AxiosError) (w : World) :
  exists extra,
    network (run srv (api.response_onRejected error) w).1 = network w ++ extra /\
    (extra = [] \/
     extra = [refresh_request (storage w !! "refreshToken")] \/
     exists refreshed,
       extra = [refresh_request (storage w !! "refreshToken"); replay_request error refreshed]).
Proof.
  rewrite run_response_onRejected.
  destruct (is_401 error); [|exists []; simpl; split; [by rewrite app_nil_r|by left]].
  destruct (refresh_outcome srv w) as [[refreshed|e]|] eqn:E; simpl.
  - eexists [_; _]. split; [by rewrite <- app_assoc|]. right; right. by exists refreshed.
  - eexists [_]. split; [reflexivity|]. by right; left.
  - exists []. split; [by rewrite app_nil_r|by left].
Qed.

(** C6. The replay goes out on the global axios instance, which carries no
    interceptor.  So the handler of a 401 never puts more on the wire than
    one refresh call and one replay, whatever the server answers: a request
    is retried at most once and there is no refresh loop.  And when the
    refresh succeeded and the replayed request is answered 401 again, that
    second 401 is what the caller gets ([AuthExpired]), with nothing sent
    after the replay. *)
Theorem replayed_401_is_not_refreshed_again (error : AxiosError) (w : World) :
  let refreshToken := storage w !! "refreshToken" in
  (exists extra,
     network (run srv (api.response_onRejected error) w).1 = network w ++ extra /\
     (extra = [] \/
      extra = [refresh_request refreshToken] \/
      exists refreshed, extra = [refresh_request refreshToken; replay_request error refreshed])) /\
  (forall (refreshed : Response) (error' : AxiosError),
     let replay := replay_request error refreshed in
     is_401 error = true ->
     truthy refreshToken = true ->
     settle (refresh_request refreshToken) (srv (network w) (refresh_request refreshToken))
       = inl refreshed ->
     settle replay (srv (network w ++ [refresh_request refreshToken]) replay) = inr error' ->
     is_401 error' = true ->
     exists w',
       run srv (api.response_onRejected error) w = (w', inr error') /\
       AuthExpired error' /\
       network w' = network w ++ [refresh_request refreshToken; replay]).
Proof.
  intros refreshToken. split; [apply response_onRejected_network|].
  intros refreshed error' replay H401 Htruthy Hrefresh Hreplay H401'.
  rewrite run_response_onRejected, H401. unfold refresh_outcome.
  fold refreshToken. rewrite Htruthy, Hrefresh. simpl.
  fold replay. fold refreshToken. rewrite Hreplay.
  eexists; repeat split; [exact H401'|].
  simpl. by rewrite <- app_assoc.
Qed.

End Replay.

(** C6 at a concrete input: the server mints a new pair and still answers the
    replayed request with 401. *)
Lemma replayed_401_is_not_refreshed_again_witness :
  exists w',
    run Scenario.refreshes_then_rejects (api.response_onRejected Scenario.card_expired)
        Scenario.signed_in
      = (w', inr (mkError (replay_request Scenario.card_expired (Scenario.minted "A2" "R2"))
                          (Some Scenario.unauthorized))) /\
    AuthExpired (mkError (replay_request Scenario.card_expired (Scenario.minted "A2" "R2"))
                         (Some Scenario.unauthorized)) /\
    network w' = network Scenario.signed_in ++
      [refresh_request (storage Scenario.signed_in !! "refreshToken");
       replay_request Scenario.card_expired (Scenario.minted "A2" "R2")].
Proof.
  apply (proj2 (replayed_401_is_not_refreshed_again Scenario.refreshes_then_rejects
                  Scenario.card_expired Scenario.signed_in)
           (Scenario.minted "A2" "R2"));
    reflexivity.
Defined.

(** ** Registration and sign-up *)

Section Register.
Context (srv : Transport).

Lemma response_onRejected_session (error : AxiosError) (w : World) :
  session (run srv (api.response_onRejected error) w).1 = session w.
Proof.
  rewrite run_response_onRejected.
  destruct (is_401 error); [|reflexivity].
  destruct (refresh_outcome srv w) as [[?|?]|]; reflexivity.
Qed.

Lemma api_request_session (c : Config) (w : World) :
  session (run srv (api.request c) w).1 = session w.
Proof.
  rewrite run_api_request. destruct (settle _ _); [reflexivity|].
  by rewrite response_onRejected_session.
Qed.

(** C10. [register] is a call on the [api] instance.  With an access token
    in storage (a non-empty string, the test the request interceptor and
    [isAuthenticated] apply) the registration request goes out with
    [Authorization: Bearer <token>], and a 401 answer to it is handed to the
    same error handler of the response interceptor that every call on the
    instance gets, here the profile fetch. *)
Theorem register_goes_through_authenticated_pipeline
    (userData : UserData) (w : World) (t : string) :
  storage w !! "token" = Some t ->
  t <> "" ->
  let sent := outgoing (register_config userData) w in
  headers sent !! "Authorization" = Some ("Bearer " +:+ t) /\
  (exists extra, network (run srv (authService.register userData) w).1
                 = network w ++ sent :: extra) /\
  (forall r, srv (network w) sent = Some r -> status r = 401 ->
     run srv (authService.register userData) w =
     run srv (response ← api.response_onRejected (mkError sent (Some r)); mret (data response))
         (dispatch sent w)) /\
  (forall r, srv (network w) (outgoing profile_config w) = Some r -> status r = 401 ->
     run srv userService.getUserProfile w =
     run srv (response ← api.response_onRejected (mkError (outgoing profile_config w) (Some r));
              mret (data response))
         (dispatch (outgoing profile_config w) w)).
Proof.
  intros Htoken Hne sent.
  assert (Htruthy : truthy (storage w !! "token") = true).
  { rewrite Htoken. simpl. destruct (String.eqb_spec t ""); [contradiction|reflexivity]. }
  split; [|split; [|split]].
  - unfold sent, outgoing. rewrite Htruthy, Htoken. simpl. apply lookup_insert_eq.
  - unfold authService.register, api.post. rewrite run_mbind, run_api_request.
    fold (register_config userData). fold sent.
    destruct (settle sent _) as [response|error]; simpl.
    + exists []. reflexivity.
    + destruct (response_onRejected_network_bound srv error (dispatch sent w))
        as (extra & Hnet & _).
      destruct (run srv (api.response_onRejected error) (dispatch sent w)) as [w' [?|?]];
        simpl in *; exists extra; rewrite Hnet; by rewrite <- app_assoc.
  - intros r Hreply Hstatus.
    unfold authService.register, api.post. rewrite !run_mbind, run_api_request.
    fold (register_config userData). fold sent.
    rewrite Hreply. unfold settle, validateStatus. rewrite Hstatus. reflexivity.
  - intros r Hreply Hstatus.
    unfold userService.getUserProfile, api.get. rewrite !run_mbind, run_api_request.
    fold profile_config.
    rewrite Hreply. unfold settle, validateStatus. rewrite Hstatus. reflexivity.
Qed.

End Register.

(** C10 at a concrete input: a signed-in device registers another account. *)
Lemma register_goes_through_authenticated_pipeline_witness :
  let srv := Scenario.rejects_everything in
  let w := Scenario.signed_in in
  let sent := outgoing (register_config Scenario.bob) w in
  headers sent !! "Authorization" = Some ("Bearer " +:+ "A1") /\
  (exists extra, network (run srv (authService.register Scenario.bob) w).1
                 = network w ++ sent :: extra) /\
  (forall r, srv (network w) sent = Some r -> status r = 401 ->
     run srv (authService.register Scenario.bob) w =
     run srv (response ← api.response_onRejected (mkError sent (Some r)); mret (data response))
         (dispatch sent w)) /\
  (forall r, srv (network w) (outgoing profile_config w) = Some r -> status r = 401 ->
     run srv userService.getUserProfile w =
     run srv (response ← api.response_onRejected (mkError (outgoing profile_config w) (Some r));
              mret (data response))
         (dispatch (outgoing profile_config w) w)).
Proof.
  apply (register_goes_through_authenticated_pipeline Scenario.rejects_everything
           Scenario.bob Scenario.signed_in "A1"); [reflexivity|discriminate].
Defined.

Section SignUp.
Context (srv : Transport).

(** Whatever [register] puts on the wire, it is never the login call. *)
Lemma register_never_calls_login (userData : UserData) (w : World) :
  exists extra,
    network (run srv (authService.register userData) w).1 = network w ++ extra /\
    Forall (fun c => url c <> login_url) extra.
Proof.
  unfold authService.register, api.post. rewrite run_mbind, run_api_request.
  fold (register_config userData).
  set (sent := outgoing (register_config userData) w).
  assert (Hsent : url sent <> login_url).
  { unfold sent, outgoing. destruct (truthy _); discriminate. }
  destruct (settle sent _) as [response|error] eqn:Hsettle; simpl.
  { exists [sent]. split; [reflexivity|]. by constructor. }
  assert (Hcfg : config error = sent).
  { unfold settle in Hsettle. destruct (srv _ _) as [r|]; [destruct (validateStatus _)|];
      inversion Hsettle; reflexivity. }
  rewrite run_response_onRejected.
  destruct (is_401 error).
  2:{ exists [sent]. split; [reflexivity|]. by constructor. }
  destruct (refresh_outcome srv (dispatch sent w)) as [[refreshed|e]|]; simpl.
  - destruct (settle (replay_request error refreshed) _); simpl;
      (eexists [sent; _; _]; split; [by rewrite <- !app_assoc|]);
      repeat constructor; try done; unfold replay_request; rewrite Hcfg; exact Hsent.
  - eexists [sent; _]. split; [by rewrite <- !app_assoc|]. repeat constructor; done.
  - exists [sent]. split; [reflexivity|]. by constructor.
Qed.

(** C8. [signUp] runs [register] and then, only if it succeeded, the whole
    of [signIn] with [userData.username] and [userData.password].  When
    [register] fails, [signUp] rejects with the same error, nothing was sent
    to the login endpoint, [isLoading] ends false and [isSignedIn] is what it
    was: a signed-out session stays [Unauthenticated]. *)
Theorem signUp_is_register_then_signIn (userData : UserData) (w : World) :
  match run srv (authService.register userData) (with_session (set_isLoading true) w) with
  | (w1, inl _) =>
      let '(w2, outcome) :=
        run srv (AuthContext.signIn (username userData) (password userData)) w1 in
      run srv (AuthContext.signUp userData) w = (with_session (set_isLoading false) w2, outcome)
  | (w1, inr error) =>
      run srv (AuthContext.signUp userData) w = (with_session (set_isLoading false) w1, inr error) /\
      (exists extra, network w1 = network w ++ extra /\
                     Forall (fun c => url c <> login_url) extra) /\
      session (with_session (set_isLoading false) w1)
        = mkSession (user (session w)) false (isSignedIn (session w)) /\
      (isSignedIn (session w) = false ->
       sessionState (session (with_session (set_isLoading false) w1)) = Unauthenticated)
  end.
Proof.
  pose proof (register_never_calls_login userData (with_session (set_isLoading true) w)) as Hnet.
  assert (Hsess : session (run srv (authService.register userData)
                             (with_session (set_isLoading true) w)).1
                  = set_isLoading true (session w)).
  { unfold authService.register, api.post. rewrite run_mbind.
    pose proof (api_request_session srv (register_config userData)
                  (with_session (set_isLoading true) w)) as H.
    unfold register_config in H.
    destruct (run srv (api.request _) _) as [w' [?|?]]; exact H. }
  unfold AuthContext.signUp.
  rewrite run_try_finally, run_rethrow, run_setIsLoading_then, run_mbind.
  destruct (run srv (authService.register userData) _) as [w1 [d|error]];
    cbn [fst] in Hsess.
  - destruct (run srv (AuthContext.signIn _ _) w1) as [w2 outcome].
    by rewrite run_setIsLoading.
  - rewrite run_setIsLoading.
    split; [reflexivity|]. split; [exact Hnet|].
    split.
    + cbn [session with_session]. rewrite Hsess. reflexivity.
    + intros Hout. cbn [session with_session]. rewrite Hsess.
      unfold sessionState; simpl. by rewrite Hout.
Qed.

End SignUp.

(** C8 at a concrete input: the server rejects the registration. *)
Lemma signUp_is_register_then_signIn_witness :
  exists w1 error,
    run Scenario.rejects_everything (authService.register Scenario.bob)
        (with_session (set_isLoading true) Scenario.signed_out) = (w1, inr error) /\
    run Scenario.rejects_everything (AuthContext.signUp Scenario.bob) Scenario.signed_out
      = (with_session (set_isLoading false) w1, inr error) /\
    sessionState (session (with_session (set_isLoading false) w1)) = Unauthenticated.
Proof.
  pose proof (signUp_is_register_then_signIn Scenario.rejects_everything Scenario.bob
                Scenario.signed_out) as H.
  destruct (run Scenario.rejects_everything (authService.register Scenario.bob) _)
    as [w1 [d|error]] eqn:E.
  - vm_compute in E. discriminate E.
  - destruct H as (Hrun & _ & _ & Hstate).
    exists w1, error. split; [reflexivity|]. split; [exact Hrun|]. apply Hstate. reflexivity.
Defined.

(** ** Sign-in *)

Section SignIn.
Context (srv : Transport).

(** The complete behaviour of [authService.login]. *)
Lemma run_login (username password : string) (w : World) :
  run srv (authService.login username password) w =
  let c := login_config username password in
  match settle c (srv (network w) c) with
  | inl response =>
      (store "refreshToken" (refresh_token (data response))
         (store "token" (access_token (data response)) (dispatch c w)),
       inl (data response))
  | inr error => (dispatch c w, inr error)
  end.
Proof.
  unfold authService.login, axios.post, axios.request. simpl.
  change (API_URL +:+ "/auth/token") with login_url.
  fold (login_config username password).
  destruct (settle _ _); reflexivity.
Qed.

(** C9, as the code has it.  When the login call succeeds and the profile
    fetch that follows fails with anything but a 401 (no response, or another
    status), [signIn] rejects with that error, [isSignedIn] is what it was
    (a signed-out session stays [Unauthenticated]), and the pair stored by
    [login] is still in storage: [isAuthenticated], which the bootstrap
    consults, answers true for a non-empty access token. *)
Theorem signIn_profile_failure_keeps_tokens
    (username password : string) (w : World) (minted : Response) (error : AxiosError) :
  let login := login_config username password in
  let w1 := store "refreshToken" (refresh_token (data minted))
              (store "token" (access_token (data minted))
                 (dispatch login (with_session (set_isLoading true) w))) in
  let profile := outgoing profile_config w1 in
  settle login (srv (network w) login) = inl minted ->
  settle profile (srv (network w1) profile) = inr error ->
  is_401 error = false ->
  exists w',
    run srv (AuthContext.signIn username password) w = (w', inr error) /\
    tokens w' = (Some (access_token (data minted)), Some (refresh_token (data minted))) /\
    session w' = mkSession (user (session w)) false (isSignedIn (session w)) /\
    (isSignedIn (session w) = false -> sessionState (session w') = Unauthenticated) /\
    (access_token (data minted) <> "" ->
     run srv authService.isAuthenticated w' = (w', inl true)).
Proof.
  intros login w1 profile Hlogin Hprofile Hnot401.
  assert (Htokens : tokens w1
                    = (Some (access_token (data minted)), Some (refresh_token (data minted)))).
  { unfold tokens, w1, store; simpl. f_equal.
    - rewrite lookup_insert_ne by discriminate. apply lookup_insert_eq.
    - apply lookup_insert_eq. }
  exists (with_session (set_isLoading false) (dispatch profile w1)).
  split; [|split; [|split; [|split]]].
  - unfold AuthContext.signIn.
    rewrite run_try_finally, run_rethrow, run_setIsLoading_then, run_mbind, run_login.
    cbn [network with_session]. fold login. rewrite Hlogin. cbn zeta. fold w1.
    rewrite run_mbind. unfold AuthContext.loadUserProfile.
    rewrite run_rethrow, run_mbind. unfold userService.getUserProfile, api.get.
    rewrite run_mbind, run_api_request. fold profile_config. fold profile.
    rewrite Hprofile, run_response_onRejected, Hnot401.
    by rewrite run_setIsLoading.
  - exact Htokens.
  - reflexivity.
  - intros Hout. unfold sessionState; simpl. by rewrite Hout.
  - intros Hne. unfold authService.isAuthenticated. simpl.
    injection Htokens as Htok _. unfold w1 in Htok. simpl in Htok. rewrite Htok. simpl.
    destruct (String.eqb_spec (access_token (data minted)) ""); [contradiction|reflexivity].
Qed.

End SignIn.

(** C9 at a concrete input: the profile endpoint answers 500 after a
    successful login. *)
Lemma signIn_profile_failure_keeps_tokens_witness :
  exists w' error,
    run Scenario.profile_down (AuthContext.signIn "alice" "Secret123") Scenario.signed_out
      = (w', inr error) /\
    tokens w' = (Some "A1", Some "R1") /\
    sessionState (session w') = Unauthenticated /\
    run Scenario.profile_down authService.isAuthenticated w' = (w', inl true).
Proof.
  destruct (signIn_profile_failure_keeps_tokens Scenario.profile_down "alice" "Secret123"
              Scenario.signed_out (Scenario.minted "A1" "R1")
              (mkError (outgoing profile_config
                          (store "refreshToken" "R1" (store "token" "A1"
                             (dispatch (login_config "alice" "Secret123")
                                (with_session (set_isLoading true) Scenario.signed_out)))))
                       (Some (mkResponse 500 (mkData "" "" "{detail: Internal Server Error}"))))
              eq_refl eq_refl eq_refl)
    as (w' & Hrun & Htokens & _ & Hstate & Hboot).
  eexists w', _. split; [exact Hrun|]. split; [exact Htokens|].
  split; [apply Hstate; reflexivity|apply Hboot; discriminate].
Defined.

(** C9 as stated fails when the profile fetch fails with a 401: the response
    interceptor tries a refresh, the refresh is rejected, and the handler
    removes the pair that [login] had just stored.  [signIn] rejects, the
    session is [Unauthenticated], and the store is empty: a later bootstrap
    finds no session. *)
Lemma signIn_profile_401_counterexample :
  let '(w', outcome) :=
    run Scenario.login_only (AuthContext.signIn "alice" "Secret123") Scenario.signed_out in
  (exists error, outcome = inr error /\ is_401 error = true) /\
  sessionState (session w') = Unauthenticated /\
  journal w' = [WSet "token" "A1"; WSet "refreshToken" "R1";
                WRemove "token"; WRemove "refreshToken"] /\
  tokens w' = (None, None) /\
  run Scenario.login_only authService.isAuthenticated w' = (w', inl false).
Proof. vm_compute. split; [eexists; split; reflexivity|repeat split]. Qed.

(** ** Sign-out *)

Section SignOut.
Context (srv : Transport).

(** [authService.logout] always ends with both keys removed, whatever the
    logout call did. *)
Lemma logout_clears_tokens (w : World) :
  cleared (run srv authService.logout w).1.
Proof.
  unfold authService.logout. rewrite run_try_finally.
  destruct (run srv _ w) as [w1 outcome]. simpl.
  apply cleared_remove_both.
Qed.

(** [signOut], in terms of [logout]: the session is reset only when [logout]
    resolved; when it rejected, the error is rethrown and only [isLoading]
    is put back. *)
Lemma run_signOut (w : World) :
  run srv AuthContext.signOut w =
  match run srv authService.logout (with_session (set_isLoading true) w) with
  | (w1, inl _) =>
      (with_session (fun _ => mkSession None false false) w1, inl tt)
  | (w1, inr error) =>
      (with_session (set_isLoading false) w1, inr error)
  end.
Proof.
  unfold AuthContext.signOut.
  rewrite run_try_finally, run_rethrow, run_setIsLoading_then, run_mbind.
  destruct (run srv authService.logout _) as [w1 [[]|error]]; reflexivity.
Qed.

(** The part of C5 the code keeps: after [signOut] the token store is empty,
    whether or not the logout call went through. *)
Lemma signOut_always_clears_tokens (w : World) :
  cleared (run srv AuthContext.signOut w).1.
Proof.
  rewrite run_signOut.
  pose proof (logout_clears_tokens (with_session (set_isLoading true) w)) as H.
  destruct (run srv authService.logout _) as [w1 [[]|error]]; exact H.
Qed.

(** When [signOut] resolves, the session is [Unauthenticated]. *)
Lemma signOut_resolved_is_unauthenticated (w w' : World) :
  run srv AuthContext.signOut w = (w', inl tt) ->
  session w' = mkSession None false false /\ sessionState (session w') = Unauthenticated.
Proof.
  rewrite run_signOut.
  destruct (run srv authService.logout _) as [w1 [[]|error]]; intros H; inversion H.
  split; reflexivity.
Qed.

End SignOut.

(** C5 on the failing input: a signed-in user signs out while the device is
    offline.  The tokens are removed, but the failure of the logout call is
    not ignored: it leaves [logout] through its [finally], [signOut] rethrows
    it, and [setUser(null)] and [setIsSignedIn(false)] are skipped; the
    session is still [Authenticated], with the user's profile, over an empty
    token store. *)
Theorem signOut_offline_stays_authenticated :
  let '(w', outcome) := run Scenario.offline AuthContext.signOut Scenario.signed_in in
  cleared w' /\
  outcome = inr (mkError (outgoing logout_config Scenario.signed_in) None) /\
  session w' = session Scenario.signed_in /\
  sessionState (session w') = Authenticated.
Proof. vm_compute. repeat split. Qed.

(** ** The order of the token writes *)

Section Journal.
Context (srv : Transport).

(** What the error handler writes: nothing, the new pair, or the two
    removals. *)
Lemma response_onRejected_journal (error : AxiosError) (w : World) :
  exists ws,
    journal (run srv (api.response_onRejected error) w).1 = journal w ++ ws /\
    (ws = [] \/
     (exists a r, ws = [WSet "token" a; WSet "refreshToken" r]) \/
     ws = [WRemove "token"; WRemove "refreshToken"]).
Proof.
  rewrite run_response_onRejected.
  destruct (is_401 error); [|exists []; split; [by rewrite app_nil_r|by left]].
  destruct (refresh_outcome srv w) as [[refreshed|e]|]; simpl.
  - eexists [_; _]. split; [by rewrite <- app_assoc|]. right; left. by eexists _, _.
  - eexists [_; _]. split; [by rewrite <- app_assoc|]. by right; right.
  - eexists [_; _]. split; [by rewrite <- app_assoc|]. by right; right.
Qed.

Lemma api_request_journal (c : Config) (w : World) :
  exists ws,
    journal (run srv (api.request c) w).1 = journal w ++ ws /\
    (ws = [] \/
     (exists a r, ws = [WSet "token" a; WSet "refreshToken" r]) \/
     ws = [WRemove "token"; WRemove "refreshToken"]).
Proof.
  rewrite run_api_request. destruct (settle _ _) as [response|error].
  - exists []. split; [by rewrite app_nil_r|by left].
  - apply (response_onRejected_journal error (dispatch (outgoing c w) w)).
Qed.

(** C7, as the code has it.  Every operation that writes the token pair does
    it with two storage calls in a fixed order, the access token first.  An
    accepted [login] sets [token] and then [refreshToken] to the values of
    the response, a failed one writes nothing.  The handler of a 401 sets
    [token] and then [refreshToken] to the new values when its refresh
    succeeded, and removes [token] and then [refreshToken] when the refresh
    failed or no refresh token was stored; a call on the [api] instance
    writes what its handler writes, and nothing when it was not answered
    401.  [logout] removes [token] and then [refreshToken] after its call.
    The two calls are separate suspension points: once an accepted [login]
    has made the first, the store holds the new access token beside the old
    refresh token, or beside none, and the second write is still pending. *)
Theorem token_pair_written_access_token_first (w : World) :
  (forall username password,
     journal (run srv (authService.login username password) w).1
     = journal w ++
       match settle (login_config username password)
               (srv (network w) (login_config username password)) with
       | inl response =>
           [WSet "token" (access_token (data response));
            WSet "refreshToken" (refresh_token (data response))]
       | inr _ => []
       end) /\
  (forall error,
     journal (run srv (api.response_onRejected error) w).1
     = journal w ++
       if is_401 error then
         match refresh_outcome srv w with
         | Some (inl refreshed) =>
             [WSet "token" (access_token (data refreshed));
              WSet "refreshToken" (refresh_token (data refreshed))]
         | Some (inr _) | None => [WRemove "token"; WRemove "refreshToken"]
         end
       else []) /\
  (forall c,
     journal (run srv (api.request c) w).1
     = match settle (outgoing c w) (srv (network w) (outgoing c w)) with
       | inl _ => journal w
       | inr error =>
           journal (run srv (api.response_onRejected error) (dispatch (outgoing c w) w)).1
       end) /\
  journal (run srv authService.logout w).1
    = journal (run srv (api.request logout_config) w).1
      ++ [WRemove "token"; WRemove "refreshToken"] /\
  (forall username password minted,
     validateStatus (status minted) = true ->
     let s := exec [Respond 0 (Some minted); Resume 0]
                (spawn (authService.login username password) (mkSystem w [])) in
     pending_write <$> pool s !! 0
       = Some (Some (WSet "refreshToken" (refresh_token (data minted)))) /\
     tokens (world s) = (Some (access_token (data minted)), storage w !! "refreshToken") /\
     (storage w !! "refreshToken" = None -> partial_pair (world s) = true)).
Proof.
  split; [|split; [|split; [|split]]].
  - intros username password. rewrite run_login. cbn zeta.
    destruct (settle _ _) as [response|error]; simpl.
    + by rewrite <- app_assoc.
    + by rewrite app_nil_r.
  - intros error. rewrite run_response_onRejected.
    destruct (is_401 error); [|by rewrite app_nil_r].
    destruct (refresh_outcome srv w) as [[refreshed|e]|]; simpl; by rewrite <- app_assoc.
  - intros c. rewrite run_api_request. by destruct (settle _ _).
  - unfold authService.logout, api.post. rewrite run_try_finally, run_mbind.
    fold logout_config.
    destruct (run srv (api.request logout_config) w) as [w1 [response|error]]; simpl;
      by rewrite <- app_assoc.
  - intros username password minted Hok s.
    assert (Hs : s = mkSystem
                       (store "token" (access_token (data minted))
                          (dispatch (login_config username password) w))
                       [mkTask Data
                          (AsyncStorage.setItem "refreshToken" (refresh_token (data minted));;
                           mret (data minted))]).
    { unfold s, spawn, authService.login, axios.post, axios.request. cbn.
      unfold on_task. cbn. unfold settle. rewrite Hok. reflexivity. }
    rewrite Hs. split; [reflexivity|].
    assert (Htokens : tokens (store "token" (access_token (data minted))
                                (dispatch (login_config username password) w))
                      = (Some (access_token (data minted)), storage w !! "refreshToken")).
    { unfold tokens, store, dispatch; cbn [storage]. f_equal.
      - apply lookup_insert_eq.
      - apply lookup_insert_ne. discriminate. }
    split; [exact Htokens|].
    intros Hnone. unfold partial_pair. cbn [world].
    pose proof (f_equal fst Htokens) as Htoken.
    pose proof (f_equal snd Htokens) as Hrefresh.
    unfold tokens in Htoken, Hrefresh. cbn [fst snd] in Htoken, Hrefresh.
    rewrite Htoken, Hrefresh, Hnone. reflexivity.
Qed.

End Journal.

(** C7 at a concrete input: scenario 1, the login accepted with (A1, R1) on a
    fresh install. *)
Lemma token_pair_written_access_token_first_witness :
  let s := exec [Respond 0 (Some (Scenario.minted "A1" "R1")); Resume 0]
             (spawn (authService.login "alice" "Secret123") (mkSystem Scenario.signed_out [])) in
  pending_write <$> pool s !! 0 = Some (Some (WSet "refreshToken" "R1")) /\
  tokens (world s) = (Some "A1", None) /\
  partial_pair (world s) = true.
Proof.
  destruct (proj2 (proj2 (proj2 (proj2
              (token_pair_written_access_token_first Scenario.login_only Scenario.signed_out))))
              "alice" "Secret123" (Scenario.minted "A1" "R1") eq_refl)
    as (Hpending & Htokens & Hpartial).
  split; [exact Hpending|]. split; [exact Htokens|]. apply Hpartial. reflexivity.
Defined.

(** C7 as stated fails: scenario 1 of the specification, observed between
    the two writes of [login].  The sign-in is suspended at its second
    [setItem]; the store holds the access token A1 and no refresh token, and
    anything that runs now sees it so: [isAuthenticated] answers true. *)
Lemma token_pair_partial_counterexample :
  let s := Scenario.login_half_stored in
  pending_write <$> pool s !! 0 = Some (Some (WSet "refreshToken" "R1")) /\
  tokens (world s) = (Some "A1", None) /\
  partial_pair (world s) = true /\
  let observer := exec [Resume 1] (spawn authService.isAuthenticated s) in
  pool observer !! 1 = Some (mkTask bool (Ret true)) /\
  tokens (world observer) = (Some "A1", None).
Proof. vm_compute. repeat split. Qed.

(** ** Interleaved execution *)

Section Pool.

Lemma on_task_hit (tid : nat) (f : forall R, Prog R -> World -> Prog R * World)
    (s : System) (t : Task) :
  pool s !! tid = Some t ->
  on_task tid f s =
  mkSystem (f (result t) (code t) (world s)).2
           (<[tid := mkTask (result t) (f (result t) (code t) (world s)).1]> (pool s)).
Proof.
  intros H. unfold on_task. rewrite H.
  destruct (f (result t) (code t) (world s)); reflexivity.
Qed.

Lemma on_task_miss (tid : nat) (f : forall R, Prog R -> World -> Prog R * World) (s : System) :
  pool s !! tid = None -> on_task tid f s = s.
Proof. intros H. unfold on_task. by rewrite H. Qed.

Lemma exec_app (schedule1 schedule2 : list Event) (s : System) :
  exec (schedule1 ++ schedule2) s = exec schedule2 (exec schedule1 s).
Proof. revert s; induction schedule1 as [|ev rest IH]; intros s; simpl; auto. Qed.

(** The two interpreters agree on an operation that runs alone. *)
Lemma exec_alone_is_run {R : Type} (srv : Transport) (p : Prog R) (w : World) :
  exec (script srv p w) (spawn p (mkSystem w []))
  = mkSystem (run srv p w).1 [mkTask R (settled (run srv p w).2)].
Proof.
  unfold spawn. cbn [world pool app].
  revert w; induction p as [r|e|key k IH|key value k IH|key k IH|c k IH|u k IH|b k IH|b k IH];
    intros w; cbn [script run advance]; first [reflexivity | apply IH].
Qed.

(** A handler that is called stops at once, at its storage read or settled. *)
Lemma advance_response_onRejected (error : AxiosError) (w : World) :
  advance (api.response_onRejected error) w = (api.response_onRejected error, w).
Proof. unfold api.response_onRejected. destruct (is_401 error); reflexivity. Qed.

Lemma handlers_pool (errors : list AxiosError) (s : System) :
  handlers errors s =
  mkSystem (world s)
           (pool s ++ ((fun error => mkTask Response (api.response_onRejected error)) <$> errors)).
Proof.
  revert s; induction errors as [|error rest IH]; intros s; simpl.
  - rewrite app_nil_r. by destruct s.
  - rewrite IH. unfold spawn. rewrite advance_response_onRejected. simpl.
    by rewrite <- app_assoc.
Qed.

(** The handler of a 401 is suspended at the read of [refreshToken]. *)
Lemma response_onRejected_suspended (error : AxiosError) :
  is_401 error = true ->
  api.response_onRejected error = GetItem "refreshToken" (refreshing error).
Proof.
  intros H. unfold refreshing, after_read, api.response_onRejected. rewrite H. reflexivity.
Qed.

(** Having read a non-empty refresh token, it waits for its refresh call. *)
Lemma refreshing_waits (error : AxiosError) (rt : string) :
  is_401 error = true -> rt <> "" ->
  exists k, refreshing error (Some rt) = Http (refresh_request (Some rt)) k.
Proof.
  intros H Hne. unfold refreshing, after_read, api.response_onRejected. rewrite H. simpl.
  destruct (String.eqb_spec rt ""); [contradiction|]. simpl. eexists. reflexivity.
Qed.

End Pool.

(** ** A handler and the answer to its own refresh call *)

Section Answer.

Lemma on_task_insert (i : nat) (f : forall R, Prog R -> World -> Prog R * World)
    (w : World) (tasks : list Task) (t : Task) :
  i < length tasks ->
  on_task i f (mkSystem w (<[i := t]> tasks)) =
  mkSystem (f (result t) (code t) w).2
           (<[i := mkTask (result t) (f (result t) (code t) w).1]> tasks).
Proof.
  intros Hlt.
  rewrite (on_task_hit i f _ t) by (simpl; by apply list_lookup_insert_eq).
  simpl. by rewrite list_insert_insert_eq.
Qed.

Lemma refreshing_eq (error : AxiosError) (rt : string) :
  is_401 error = true -> rt <> "" ->
  refreshing error (Some rt)
  = Http (refresh_request (Some rt)) (after_answer (refreshing error (Some rt))).
Proof.
  intros H Hne. destruct (refreshing_waits error rt H Hne) as [k ->]. reflexivity.
Qed.

Lemma refreshing_resolved (error : AxiosError) (rt : string) (refreshed : Response) :
  is_401 error = true -> rt <> "" ->
  after_answer (refreshing error (Some rt)) (inl refreshed)
  = SetItem "token" (access_token (data refreshed))
      (SetItem "refreshToken" (refresh_token (data refreshed))
         (axios.request (replay_request error refreshed))).
Proof.
  intros H Hne. unfold refreshing, after_read, api.response_onRejected. rewrite H. simpl.
  destruct (String.eqb_spec rt ""); [contradiction|]. reflexivity.
Qed.

Lemma refreshing_rejected (error : AxiosError) (rt : string) (e : AxiosError) :
  is_401 error = true -> rt <> "" ->
  after_answer (refreshing error (Some rt)) (inr e)
  = RemoveItem "token" (RemoveItem "refreshToken" (Throw error)).
Proof.
  intros H Hne. unfold refreshing, after_read, api.response_onRejected. rewrite H. simpl.
  destruct (String.eqb_spec rt ""); [contradiction|]. reflexivity.
Qed.

Lemma refreshing_answered (error : AxiosError) (rt : string) (reply : option Response)
    (s : System) (i : nat) :
  is_401 error = true -> rt <> "" ->
  pool s !! i = Some (mkTask Response (refreshing error (Some rt))) ->
  let s' := exec [Respond i reply; Resume i; Resume i] s in
  session (world s') = session (world s) /\
  match settle (refresh_request (Some rt)) reply with
  | inl refreshed =>
      waiting_for <$> pool s' !! i = Some (Some (replay_request error refreshed)) /\
      tokens (world s')
        = (Some (access_token (data refreshed)), Some (refresh_token (data refreshed))) /\
      network (world s') = network (world s) ++ [replay_request error refreshed]
  | inr _ =>
      pool s' !! i = Some (mkTask Response (Throw error)) /\
      cleared (world s') /\
      network (world s') = network (world s)
  end.
Proof.
  intros H401 Hne Hi.
  assert (Hlt : i < length (pool s)) by (eapply lookup_lt_Some; eauto).
  cbn [exec react].
  rewrite (on_task_hit i _ s _ Hi). cbn [result code].
  rewrite (refreshing_eq error rt H401 Hne). cbn [deliver].
  destruct (settle (refresh_request (Some rt)) reply) as [refreshed|e].
  - rewrite (refreshing_resolved error rt refreshed H401 Hne). cbn [advance fst snd].
    rewrite on_task_insert by exact Hlt. cbn [result code resume advance fst snd].
    rewrite on_task_insert by exact Hlt. cbn [result code resume].
    unfold axios.request. cbn [advance fst snd world pool].
    split; [reflexivity|]. split; [|split].
    + rewrite list_lookup_insert_eq by exact Hlt. reflexivity.
    + unfold tokens, store, dispatch; simpl. f_equal.
      * rewrite lookup_insert_ne by discriminate. apply lookup_insert_eq.
      * apply lookup_insert_eq.
    + reflexivity.
  - rewrite (refreshing_rejected error rt e H401 Hne). cbn [advance fst snd].
    rewrite on_task_insert by exact Hlt. cbn [result code resume advance fst snd].
    rewrite on_task_insert by exact Hlt. cbn [result code resume advance fst snd world pool].
    split; [reflexivity|]. split; [|split].
    + by rewrite list_lookup_insert_eq by exact Hlt.
    + apply cleared_remove_both.
    + reflexivity.
Qed.
End Answer.

(** ** No coalescing: one refresh call per request *)

Lemma refresh_phase_start (errors : list AxiosError) (w : World) (rt : string) :
  refresh_phase errors w rt ∅ (handlers errors (mkSystem w [])).
Proof.
  rewrite handlers_pool. unfold refresh_phase; cbn [world pool app].
  split; [reflexivity|]. split; [reflexivity|].
  split; [rewrite size_empty; simpl; by rewrite app_nil_r|].
  split; [set_solver|]. split; [by rewrite length_fmap|].
  intros i error Hi. rewrite list_lookup_fmap, Hi. reflexivity.
Qed.

Section Coalescing.
Context (errors : list AxiosError) (w : World) (rt : string).
Hypothesis errors_401 : Forall (fun error => is_401 error = true) errors.
Hypothesis stored : storage w !! "refreshToken" = Some rt.
Hypothesis nonempty : rt <> "".

Lemma refresh_phase_step (sent : gset nat) (s : System) (tid : nat) :
  refresh_phase errors w rt sent s ->
  exists sent',
    refresh_phase errors w rt sent' (react (Resume tid) s) /\
    sent ⊆ sent' /\
    (tid < length errors -> tid ∈ sent').
Proof.
  intros (Hstorage & Hsession & Hnetwork & Hbound & Hlength & Htasks).
  destruct (errors !! tid) as [error|] eqn:Herror.
  2:{ exists sent. split; [|split; [done|]].
      - cbn [react]. rewrite on_task_miss; [by repeat split|].
        apply lookup_ge_None. rewrite Hlength. by apply lookup_ge_None.
      - intros Hlt. apply lookup_ge_None in Herror. lia. }
  assert (H401 : is_401 error = true).
  { eapply (proj1 (Forall_forall _ _) errors_401). by eapply list_elem_of_lookup_2. }
  assert (Hlt : tid < length (pool s)).
  { rewrite Hlength. by eapply lookup_lt_Some. }
  pose proof (Htasks tid error Herror) as Htid.
  cbn [react]. rewrite (on_task_hit tid _ s _ Htid). cbn [result code].
  destruct (decide (tid ∈ sent)) as [Hin|Hnotin].
  - exists sent. split; [|split; [done|done]].
    rewrite (refreshing_eq error rt H401 nonempty). cbn [resume fst snd].
    rewrite <- (refreshing_eq error rt H401 nonempty).
    rewrite list_insert_id by exact Htid.
    destruct s; by repeat split.
  - exists ({[tid]} ∪ sent). split; [|split; [set_solver|set_solver]].
    rewrite (response_onRejected_suspended error H401). cbn [resume].
    rewrite Hstorage, stored.
    rewrite (refreshing_eq error rt H401 nonempty). cbn [advance fst snd].
    rewrite <- (refreshing_eq error rt H401 nonempty).
    unfold refresh_phase; cbn [world pool].
    split; [exact Hstorage|]. split; [exact Hsession|]. split; [|split; [|split]].
    + cbn [network dispatch]. rewrite Hnetwork.
      rewrite size_union by set_solver. rewrite size_singleton.
      rewrite <- app_assoc. f_equal. symmetry. apply replicate_S_end.
    + intros i Hi. apply elem_of_union in Hi as [Hi|Hi]; [|by apply Hbound].
      apply elem_of_singleton in Hi as ->. by eapply lookup_lt_Some.
    + by rewrite length_insert.
    + intros i error' Hi. destruct (decide (i = tid)) as [->|Hne].
      * rewrite list_lookup_insert_eq by exact Hlt.
        rewrite decide_True; [congruence|set_solver].
      * rewrite list_lookup_insert_ne; [|done]. rewrite (Htasks i error' Hi).
        destruct (decide (i ∈ sent)).
        -- rewrite decide_True; [done|]. apply elem_of_union. by right.
        -- rewrite decide_False; [done|]. rewrite elem_of_union, elem_of_singleton. tauto.
Qed.

Lemma refresh_phase_exec (schedule : list Event) (sent : gset nat) (s : System) :
  forallb is_resume schedule = true ->
  refresh_phase errors w rt sent s ->
  exists sent',
    refresh_phase errors w rt sent' (exec schedule s) /\
    sent ⊆ sent' /\
    (forall tid, Resume tid ∈ schedule -> tid < length errors -> tid ∈ sent').
Proof.
  revert sent s. induction schedule as [|ev rest IH]; intros sent s Hres Hinv.
  - exists sent. split; [exact Hinv|]. split; [done|]. intros tid Hin. by apply elem_of_nil in Hin.
  - simpl in Hres. apply andb_true_iff in Hres as [Hev Hrest].
    destruct ev as [tid|tid reply]; [|discriminate].
    destruct (refresh_phase_step sent s tid Hinv) as (sent1 & Hinv1 & Hsub1 & Htid1).
    destruct (IH sent1 (react (Resume tid) s) Hrest Hinv1) as (sent2 & Hinv2 & Hsub2 & Htid2).
    exists sent2. split; [exact Hinv2|]. split; [set_solver|].
    intros tid' Hin Hlt. apply elem_of_cons in Hin as [Heq|Hin].
    + inversion Heq; subst. apply Hsub2, Htid1, Hlt.
    + by apply Htid2.
Qed.

End Coalescing.

Lemma refresh_calls_replicate (w w' : World) (n : nat) (rt : option string) :
  network w' = network w ++ replicate n (refresh_request rt) ->
  refresh_calls w' = refresh_calls w + n.
Proof.
  intros H. unfold refresh_calls. rewrite H, filter_app, length_app. f_equal. clear H.
  induction n as [|n IH]; [reflexivity|].
  cbn [replicate]. rewrite filter_cons_True by reflexivity.
  cbn [length]. by rewrite IH.
Qed.

(** C1, as the code has it.  [N] requests have each come back with 401 and
    their handlers run, in any interleaving, while no refresh call has been
    answered yet; a non-empty refresh token is stored.  Once every handler
    has read it, [N] refresh calls are on the wire, one per request, all
    carrying the same refresh token.  Each handler waits for the answer to
    its own call and is settled by that answer alone, whatever happened in
    between: a new pair makes it replay its request, a failure makes it
    reject with its own 401 error. *)
Theorem one_refresh_call_per_request
    (errors : list AxiosError) (w : World) (rt : string) (schedule : list Event) :
  Forall (fun error => is_401 error = true) errors ->
  storage w !! "refreshToken" = Some rt ->
  rt <> "" ->
  forallb is_resume schedule = true ->
  (forall i, i < length errors -> Resume i ∈ schedule) ->
  let s := exec schedule (handlers errors (mkSystem w [])) in
  refresh_calls (world s) = refresh_calls w + length errors /\
  network (world s) = network w ++ replicate (length errors) (refresh_request (Some rt)) /\
  (forall i error, errors !! i = Some error ->
     waiting_for <$> pool s !! i = Some (Some (refresh_request (Some rt))) /\
     forall (later : System) (reply : option Response),
       pool later !! i = pool s !! i ->
       let s' := exec [Respond i reply; Resume i; Resume i] later in
       match settle (refresh_request (Some rt)) reply with
       | inl refreshed =>
           waiting_for <$> pool s' !! i = Some (Some (replay_request error refreshed))
       | inr _ =>
           settlement <$> pool s' !! i = Some (Some (Some error)) /\ AuthExpired error
       end).
Proof.
  intros H401 Hstored Hne Hresumes Hall s.
  destruct (refresh_phase_exec errors w rt H401 Hstored Hne schedule ∅ _ Hresumes
              (refresh_phase_start errors w rt))
    as (sent & (Hstorage & Hsession & Hnetwork & Hbound & Hlength & Htasks) & _ & Hsent).
  fold s in Hstorage, Hsession, Hnetwork, Hlength, Htasks.
  assert (Hsize : size sent = length errors).
  { assert (sent = set_seq 0 (length errors)) as ->.
    { apply set_eq. intros i. rewrite elem_of_set_seq. split.
      - intros Hi. split; [lia|]. by apply Hbound.
      - intros [_ Hi]. apply Hsent; [by apply Hall|exact Hi]. }
    apply size_set_seq. }
  rewrite Hsize in Hnetwork.
  split; [by apply (refresh_calls_replicate w (world s) _ (Some rt))|].
  split; [exact Hnetwork|].
  intros i error Hi.
  assert (Herr : is_401 error = true).
  { eapply (proj1 (Forall_forall _ _) H401). by eapply list_elem_of_lookup_2. }
  pose proof (Htasks i error Hi) as Htask.
  rewrite decide_True in Htask.
  2:{ apply Hsent; [apply Hall|]; by eapply lookup_lt_Some. }
  split.
  - rewrite Htask. cbn. rewrite (refreshing_eq error rt Herr Hne). reflexivity.
  - intros later reply Hlater. rewrite Htask in Hlater.
    destruct (refreshing_answered error rt reply later i Herr Hne Hlater) as [_ Hanswer].
    cbn zeta. destruct (settle (refresh_request (Some rt)) reply) as [refreshed|e].
    + apply Hanswer.
    + destruct Hanswer as (-> & _). split; [reflexivity|exact Herr].
Qed.

(** ** Sign-out while a refresh is pending *)

Section SignOutRace.

(** C3, as the code has it.  A handler has sent its refresh call; [signOut]
    is called and completes (its logout call is served) before the refresh
    is answered.  When [signOut] completes the token store is cleared and the
    session is [Unauthenticated].  The handler never touches the session, so
    it is still [Unauthenticated] after the refresh is answered; but the
    handler knows nothing of the sign-out: a refresh answered with a new pair
    stores that pair and replays the request, and only a failed refresh
    leaves the store cleared and rejects the request with its 401 error. *)
Theorem refresh_answered_after_signOut
    (error : AxiosError) (w : World) (rt : string) (served : Response) (reply : option Response) :
  is_401 error = true ->
  storage w !! "refreshToken" = Some rt ->
  rt <> "" ->
  validateStatus (status served) = true ->
  let pending := exec [Resume 0] (spawn (api.response_onRejected error) (mkSystem w [])) in
  let signed_out :=
    exec [Resume 1; Respond 1 (Some served); Resume 1; Resume 1]
      (spawn AuthContext.signOut pending) in
  let answered := exec [Respond 0 reply; Resume 0; Resume 0] signed_out in
  waiting_for <$> pool pending !! 0 = Some (Some (refresh_request (Some rt))) /\
  settlement <$> pool signed_out !! 1 = Some (Some None) /\
  cleared (world signed_out) /\
  sessionState (session (world signed_out)) = Unauthenticated /\
  sessionState (session (world answered)) = Unauthenticated /\
  match settle (refresh_request (Some rt)) reply with
  | inl refreshed =>
      tokens (world answered)
        = (Some (access_token (data refreshed)), Some (refresh_token (data refreshed))) /\
      waiting_for <$> pool answered !! 0 = Some (Some (replay_request error refreshed))
  | inr _ =>
      cleared (world answered) /\
      settlement <$> pool answered !! 0 = Some (Some (Some error)) /\
      AuthExpired error
  end.
Proof.
  intros H401 Hstored Hne Hserved pending signed_out answered.
  assert (Hpending : pending = mkSystem (dispatch (refresh_request (Some rt)) w)
                                 [mkTask Response (refreshing error (Some rt))]).
  { unfold pending, spawn. rewrite advance_response_onRejected.
    cbn [exec react pool world app]. unfold on_task. cbn [lookup list_lookup pool world result code].
    rewrite (response_onRejected_suspended error H401). cbn [resume].
    rewrite Hstored. rewrite (refreshing_eq error rt H401 Hne). reflexivity. }
  assert (Hout : exists w', signed_out = mkSystem w' [mkTask Response (refreshing error (Some rt));
                                                      mkTask unit (Ret tt)] /\
                            cleared w' /\ session w' = mkSession None false false).
  { unfold signed_out. rewrite Hpending. unfold spawn. simpl.
    unfold on_task at 4. simpl.
    destruct (truthy (storage w !! "token")); simpl;
      unfold on_task at 3; simpl; unfold settle; rewrite Hserved; simpl;
      unfold on_task at 2; simpl; unfold on_task; simpl;
      (eexists; split; [reflexivity|]; split; [|reflexivity]);
      apply cleared_remove_both. }
  destruct Hout as (w' & Hsigned_out & Hcleared & Hsession).
  assert (Htask : pool signed_out !! 0 = Some (mkTask Response (refreshing error (Some rt)))).
  { rewrite Hsigned_out. reflexivity. }
  destruct (refreshing_answered error rt reply signed_out 0 H401 Hne Htask)
    as [Hsame Hanswer].
  fold answered in Hsame, Hanswer.
  split; [rewrite Hpending; cbn; by rewrite (refreshing_eq error rt H401 Hne)|].
  split; [by rewrite Hsigned_out|].
  split; [by rewrite Hsigned_out|].
  split; [by rewrite Hsigned_out; cbn [world]; rewrite Hsession|].
  split; [rewrite Hsame, Hsigned_out; cbn [world]; by rewrite Hsession|].
  destruct (settle (refresh_request (Some rt)) reply) as [refreshed|e].
  - destruct Hanswer as (Hreplay & Htokens & _). by split.
  - destruct Hanswer as (Hrejected & Hclr & _).
    split; [exact Hclr|]. split; [by rewrite Hrejected|exact H401].
Qed.

End SignOutRace.

(** ** The scenarios of the specification, evaluated *)

(** C1 at a concrete input: the two handlers of scenario 4 run in the order
    1, 0. *)
Lemma one_refresh_call_per_request_witness :
  let s := exec [Resume 1; Resume 0]
             (handlers [Scenario.card_expired; Scenario.vendors_expired]
                (mkSystem Scenario.signed_in [])) in
  refresh_calls (world s) = refresh_calls Scenario.signed_in + 2 /\
  network (world s) = network Scenario.signed_in ++ replicate 2 (refresh_request (Some "R1")).
Proof.
  destruct (one_refresh_call_per_request
              [Scenario.card_expired; Scenario.vendors_expired] Scenario.signed_in "R1"
              [Resume 1; Resume 0]) as (Hcalls & Hnetwork & _).
  - repeat constructor.
  - reflexivity.
  - discriminate.
  - reflexivity.
  - intros [|[|i]] Hi; [set_solver|set_solver|simpl in Hi; lia].
  - split; [exact Hcalls|exact Hnetwork].
Defined.

(** C1 as stated fails: scenario 4 of the specification.  Two requests come
    back with 401 before any refresh call has been made; each handler makes
    its own refresh call, so the transport sees two, not one; and the
    outcomes are mixed: the server accepts the first refresh and, having
    rotated the refresh token, rejects the second, so the first request is
    replayed and served while the second is rejected with its 401 error (and
    its handler removes the pair the first had just stored). *)
Lemma single_refresh_call_counterexample :
  settlement <$> pool Scenario.two_expired = [None; None] /\
  refresh_calls (world Scenario.two_expired) = 0 /\
  refresh_calls (world Scenario.two_refreshes) = 2 /\
  settlement <$> pool Scenario.two_refreshes
    = [Some None; Some (Some Scenario.vendors_expired)] /\
  AuthExpired Scenario.vendors_expired /\
  tokens (world Scenario.two_refreshes) = (None, None).
Proof. vm_compute. repeat split. Qed.

(** C3 at a concrete input: scenario 5, the refresh answered with (A2, R2). *)
Lemma refresh_answered_after_signOut_witness :
  let pending :=
    exec [Resume 0]
      (spawn (api.response_onRejected Scenario.card_expired) (mkSystem Scenario.signed_in [])) in
  let signed_out :=
    exec [Resume 1; Respond 1 (Some (Scenario.success (mkData "" "" ""))); Resume 1; Resume 1]
      (spawn AuthContext.signOut pending) in
  let answered :=
    exec [Respond 0 (Some (Scenario.minted "A2" "R2")); Resume 0; Resume 0] signed_out in
  cleared (world signed_out) /\
  sessionState (session (world answered)) = Unauthenticated /\
  tokens (world answered) = (Some "A2", Some "R2").
Proof.
  destruct (refresh_answered_after_signOut Scenario.card_expired Scenario.signed_in "R1"
              (Scenario.success (mkData "" "" "")) (Some (Scenario.minted "A2" "R2"))
              eq_refl eq_refl ltac:(discriminate) eq_refl)
    as (_ & _ & Hcleared & _ & Hstate & Htokens & _).
  split; [exact Hcleared|]. split; [exact Hstate|exact Htokens].
Defined.

(** C3 as stated fails: scenario 5 of the specification.  The refresh call is
    on the wire when [signOut] runs; [signOut] completes, the store is
    cleared and the session [Unauthenticated]; then the refresh is answered
    with (A2, R2): the handler writes the pair into the store the sign-out
    had cleared, replays the request, and the request resolves instead of
    failing with [AuthExpired]. *)
Lemma refresh_after_signOut_counterexample :
  waiting_for <$> pool Scenario.refresh_pending !! 0
    = Some (Some (refresh_request (Some "R1"))) /\
  settlement <$> pool Scenario.signed_out_meanwhile !! 1 = Some (Some None) /\
  tokens (world Scenario.signed_out_meanwhile) = (None, None) /\
  sessionState (session (world Scenario.signed_out_meanwhile)) = Unauthenticated /\
  tokens (world Scenario.refresh_after_signOut) = (Some "A2", Some "R2") /\
  settlement <$> pool Scenario.refresh_after_signOut !! 0 = Some (Some None) /\
  sessionState (session (world Scenario.refresh_after_signOut)) = Unauthenticated.
Proof. vm_compute. repeat split. Qed.

(** * Further properties of the session layer *)

(** ** Startup *)

Section Bootstrap.
Context (srv : Transport).

Lemma run_isAuthenticated (w : World) :
  run srv authService.isAuthenticated w = (w, inl (truthy (storage w !! "token"))).
Proof. reflexivity. Qed.

(** [loadUserProfile] is the profile fetch followed by [setUser]. *)
Lemma run_loadUserProfile (w : World) :
  run srv AuthContext.loadUserProfile w =
  match run srv (api.request profile_config) w with
  | (w1, inl response) => (with_session (set_user (Some (data response))) w1, inl tt)
  | (w1, inr error) => (w1, inr error)
  end.
Proof.
  unfold AuthContext.loadUserProfile, userService.getUserProfile, api.get.
  rewrite run_rethrow, !run_mbind. fold profile_config.
  destruct (run srv (api.request profile_config) w) as [w1 [response|error]]; reflexivity.
Qed.

(** [bootstrapAsync], path by path. *)
Lemma run_bootstrapAsync (w : World) :
  run srv AuthContext.bootstrapAsync w =
  if truthy (storage w !! "token") then
    match run srv AuthContext.loadUserProfile w with
    | (w1, inl _) =>
        (with_session (set_isLoading false) (with_session (set_isSignedIn true) w1), inl tt)
    | (w1, inr _) =>
        match run srv authService.logout w1 with
        | (w2, inl _) =>
            (with_session (set_isLoading false) (with_session (set_isSignedIn false) w2), inl tt)
        | (w2, inr _) => (with_session (set_isLoading false) w2, inl tt)
        end
    end
  else (with_session (set_isLoading false) w, inl tt).
Proof.
  unfold AuthContext.bootstrapAsync.
  rewrite run_try_finally, run_try_catch, run_mbind, run_isAuthenticated.
  destruct (truthy (storage w !! "token")); [|reflexivity].
  rewrite run_try_catch, run_mbind.
  destruct (run srv AuthContext.loadUserProfile w) as [w1 [[]|error]].
  - reflexivity.
  - rewrite run_mbind.
    destruct (run srv authService.logout w1) as [w2 [[]|error']]; reflexivity.
Qed.

(** X1. With no usable access token in storage (the key is missing, or holds
    the empty string) the bootstrap touches neither the network nor the
    storage: it only puts [isLoading] to false. *)
Theorem bootstrap_without_token_is_local (w : World) :
  truthy (storage w !! "token") = false ->
  run srv AuthContext.bootstrapAsync w = (with_session (set_isLoading false) w, inl tt).
Proof. intros H. rewrite run_bootstrapAsync, H. reflexivity. Qed.

(** X2. The bootstrap never rejects, whatever the server does, and always
    ends with [isLoading] false: the spinner of the navigator goes away. *)
Theorem bootstrap_always_resolves (w : World) :
  exists w',
    run srv AuthContext.bootstrapAsync w = (w', inl tt) /\
    isLoading (session w') = false.
Proof.
  rewrite run_bootstrapAsync.
  destruct (truthy (storage w !! "token")); [|by eexists].
  destruct (run srv AuthContext.loadUserProfile w) as [w1 [[]|error]]; [by eexists|].
  destruct (run srv authService.logout w1) as [w2 [[]|error']]; by eexists.
Qed.

(** X3. After the bootstrap a usable access token is in storage only if the
    user is signed in and the profile is loaded: when the profile could not
    be fetched the tokens are gone. *)
Theorem bootstrap_token_implies_signed_in (w : World) :
  truthy (storage (run srv AuthContext.bootstrapAsync w).1 !! "token") = true ->
  isSignedIn (session (run srv AuthContext.bootstrapAsync w).1) = true /\
  is_Some (user (session (run srv AuthContext.bootstrapAsync w).1)).
Proof.
  rewrite run_bootstrapAsync.
  destruct (truthy (storage w !! "token")) eqn:Htoken.
  - rewrite run_loadUserProfile.
    destruct (run srv (api.request profile_config) w) as [w1 [response|error]].
    + intros _. split; [reflexivity|by eexists].
    + pose proof (logout_clears_tokens srv w1) as Hcleared.
      destruct (run srv authService.logout w1) as [w2 [[]|error']];
        unfold cleared, tokens in Hcleared; cbn in Hcleared |- *;
        injection Hcleared as -> _; discriminate.
  - cbn. rewrite Htoken. discriminate.
Qed.

(** X4. With a usable access token in storage and the profile request
    served, the bootstrap signs the user in: the profile is the response's
    data, [isSignedIn] is true, [isLoading] false; the tokens are untouched
    and the one request on the wire is the profile request with the bearer
    token. *)
Theorem bootstrap_restores_session (w : World) (t : string) (profile : Response) :
  storage w !! "token" = Some t ->
  t <> "" ->
  settle (outgoing profile_config w) (srv (network w) (outgoing profile_config w))
    = inl profile ->
  exists w',
    run srv AuthContext.bootstrapAsync w = (w', inl tt) /\
    session w' = mkSession (Some (data profile)) false true /\
    storage w' = storage w /\
    network w' = network w ++ [outgoing profile_config w] /\
    headers (outgoing profile_config w) !! "Authorization" = Some ("Bearer " +:+ t).
Proof.
  intros Htoken Hne Hserved.
  assert (Htruthy : truthy (storage w !! "token") = true).
  { rewrite Htoken. simpl. destruct (String.eqb_spec t ""); [contradiction|reflexivity]. }
  rewrite run_bootstrapAsync, Htruthy, run_loadUserProfile, run_api_request, Hserved.
  eexists. split; [reflexivity|]. repeat split.
  unfold outgoing. rewrite Htruthy, Htoken. apply lookup_insert_eq.
Qed.

(** X5. With a usable access token in storage, a profile fetch that fails
    for whatever reason (no network, a 500, an expired session that cannot
    be refreshed) makes the bootstrap log out: the tokens are removed, the
    profile is not set, and a signed-out session stays signed out. *)
Theorem bootstrap_failure_removes_tokens (w : World) :
  truthy (storage w !! "token") = true ->
  (forall response, (run srv (api.request profile_config) w).2 <> inl response) ->
  cleared (run srv AuthContext.bootstrapAsync w).1 /\
  user (session (run srv AuthContext.bootstrapAsync w).1) = user (session w) /\
  (isSignedIn (session w) = false ->
   isSignedIn (session (run srv AuthContext.bootstrapAsync w).1) = false).
Proof.
  intros Htruthy Hfails.
  rewrite run_bootstrapAsync, Htruthy, run_loadUserProfile.
  pose proof (api_request_session srv profile_config w) as Hsession.
  destruct (run srv (api.request profile_config) w) as [w1 [response|error]].
  { by destruct (Hfails response). }
  cbn [fst] in Hsession.
  pose proof (logout_clears_tokens srv w1) as Hcleared.
  assert (Hlogout : session (run srv authService.logout w1).1 = session w1).
  { unfold authService.logout, api.post. rewrite run_try_finally, run_mbind.
    pose proof (api_request_session srv (mkConfig POST API_URL "/auth/logout" api.defaults NoBody)
                  w1) as H.
    destruct (run srv (api.request _) w1) as [w2 [?|?]]; exact H. }
  destruct (run srv authService.logout w1) as [w2 [[]|error']];
    cbn [fst] in Hcleared, Hlogout; cbn [fst session with_session];
    rewrite Hlogout, Hsession; (split; [exact Hcleared|]); split; try reflexivity.
  intros H. exact H.
Qed.

End Bootstrap.

(** X1 at a concrete input: a fresh install. *)
Lemma bootstrap_without_token_is_local_witness :
  run Scenario.offline AuthContext.bootstrapAsync Scenario.signed_out
  = (with_session (set_isLoading false) Scenario.signed_out, inl tt).
Proof.
  apply (bootstrap_without_token_is_local Scenario.offline Scenario.signed_out). reflexivity.
Defined.

(** X3 at a concrete input: the app restarts with the pair (A1, R1) stored
    and the server healthy. *)
Lemma bootstrap_token_implies_signed_in_witness :
  let w0 := mkWorld (storage Scenario.signed_in) [] [] AuthContext.initial in
  isSignedIn (session (run Servers.healthy AuthContext.bootstrapAsync w0).1) = true /\
  is_Some (user (session (run Servers.healthy AuthContext.bootstrapAsync w0).1)).
Proof.
  apply (bootstrap_token_implies_signed_in Servers.healthy
           (mkWorld (storage Scenario.signed_in) [] [] AuthContext.initial)).
  reflexivity.
Defined.

(** X4 at a concrete input: the same restart. *)
Lemma bootstrap_restores_session_witness :
  let w0 := mkWorld (storage Scenario.signed_in) [] [] AuthContext.initial in
  exists w',
    run Servers.healthy AuthContext.bootstrapAsync w0 = (w', inl tt) /\
    session w' = mkSession (Some (data (Scenario.success Scenario.alice))) false true /\
    storage w' = storage w0 /\
    network w' = network w0 ++ [outgoing profile_config w0] /\
    headers (outgoing profile_config w0) !! "Authorization" = Some ("Bearer " +:+ "A1").
Proof.
  apply (bootstrap_restores_session Servers.healthy
           (mkWorld (storage Scenario.signed_in) [] [] AuthContext.initial) "A1"
           (Scenario.success Scenario.alice)); [reflexivity|discriminate|reflexivity].
Defined.

(** X5 at a concrete input: the app restarts offline with (A1, R1) stored. *)
Lemma bootstrap_failure_removes_tokens_witness :
  let w0 := mkWorld (storage Scenario.signed_in) [] [] AuthContext.initial in
  cleared (run Scenario.offline AuthContext.bootstrapAsync w0).1 /\
  isSignedIn (session (run Scenario.offline AuthContext.bootstrapAsync w0).1) = false.
Proof.
  destruct (bootstrap_failure_removes_tokens Scenario.offline
              (mkWorld (storage Scenario.signed_in) [] [] AuthContext.initial))
    as (Hcleared & _ & Hsigned).
  - reflexivity.
  - intros response. vm_compute. discriminate.
  - split; [exact Hcleared|apply Hsigned; reflexivity].
Defined.

(** ** Signing in *)

Section SignInPaths.
Context (srv : Transport).

(** X6. When the login call is accepted and the profile request that follows
    is served, [signIn] resolves with the user signed in: the stored pair is
    the one the login returned, the profile is the response's data, and
    exactly two requests went out, the login and then the profile request,
    which already carries the access token just received. *)
Theorem signIn_success
    (username password : string) (w : World) (minted profile : Response) :
  let login := login_config username password in
  let w1 := store "refreshToken" (refresh_token (data minted))
              (store "token" (access_token (data minted))
                 (dispatch login (with_session (set_isLoading true) w))) in
  settle login (srv (network w) login) = inl minted ->
  settle (outgoing profile_config w1) (srv (network w1) (outgoing profile_config w1))
    = inl profile ->
  exists w',
    run srv (AuthContext.signIn username password) w = (w', inl tt) /\
    session w' = mkSession (Some (data profile)) false true /\
    tokens w' = (Some (access_token (data minted)), Some (refresh_token (data minted))) /\
    network w' = network w ++ [login; outgoing profile_config w1] /\
    (access_token (data minted) <> "" ->
     headers (outgoing profile_config w1) !! "Authorization"
       = Some ("Bearer " +:+ access_token (data minted))).
Proof.
  intros login w1 Hlogin Hprofile.
  assert (Htoken : storage w1 !! "token" = Some (access_token (data minted))).
  { unfold w1, store; simpl. rewrite lookup_insert_ne by discriminate. apply lookup_insert_eq. }
  assert (Hrefresh : storage w1 !! "refreshToken" = Some (refresh_token (data minted))).
  { unfold w1, store; simpl. apply lookup_insert_eq. }
  eexists. split; [|split; [|split; [|split]]].
  - unfold AuthContext.signIn.
    rewrite run_try_finally, run_rethrow, run_setIsLoading_then, run_mbind, run_login.
    cbn [network with_session]. fold login. rewrite Hlogin. cbn zeta. fold w1.
    rewrite run_mbind, run_loadUserProfile, run_api_request, Hprofile.
    rewrite run_setIsSignedIn, run_setIsLoading. reflexivity.
  - reflexivity.
  - unfold tokens. cbn [storage with_session dispatch]. by rewrite Htoken, Hrefresh.
  - cbn [network with_session dispatch]. unfold w1 at 1. cbn. by rewrite <- app_assoc.
  - intros Hne. unfold outgoing. rewrite Htoken. simpl.
    destruct (String.eqb_spec (access_token (data minted)) ""); [contradiction|].
    simpl. apply lookup_insert_eq.
Qed.

(** X7. [login] goes out on the global axios instance, past the
    interceptors.  When the login call fails, with a 401 for bad credentials
    as with anything else, [signIn] rejects with that error after this one
    request: no refresh is attempted, nothing is written to the storage (a
    pair stored earlier stays), no profile is fetched, and [isSignedIn] is
    what it was. *)
Theorem signIn_login_failure
    (username password : string) (w : World) (error : AxiosError) :
  let login := login_config username password in
  settle login (srv (network w) login) = inr error ->
  exists w',
    run srv (AuthContext.signIn username password) w = (w', inr error) /\
    storage w' = storage w /\
    journal w' = journal w /\
    network w' = network w ++ [login] /\
    session w' = mkSession (user (session w)) false (isSignedIn (session w)).
Proof.
  intros login Hlogin.
  eexists. split.
  { unfold AuthContext.signIn.
    rewrite run_try_finally, run_rethrow, run_setIsLoading_then, run_mbind, run_login.
    cbn [network with_session]. fold login. rewrite Hlogin. cbn zeta.
    rewrite run_setIsLoading. reflexivity. }
  repeat split.
Qed.

End SignInPaths.

(** X6 at a concrete input: scenario 1 of the specification. *)
Lemma signIn_success_witness :
  exists w',
    run Servers.healthy (AuthContext.signIn "alice" "Secret123") Scenario.signed_out
      = (w', inl tt) /\
    session w' = mkSession (Some Scenario.alice) false true /\
    tokens w' = (Some "A1", Some "R1").
Proof.
  destruct (signIn_success Servers.healthy "alice" "Secret123" Scenario.signed_out
              (Scenario.minted "A1" "R1") (Scenario.success Scenario.alice)
              eq_refl eq_refl)
    as (w' & Hrun & Hsession & Htokens & _).
  exists w'. split; [exact Hrun|]. split; [exact Hsession|exact Htokens].
Defined.

(** X7 at a concrete input: a signed-in device, a wrong password, a 401. *)
Lemma signIn_login_failure_witness :
  exists w',
    run Scenario.rejects_everything (AuthContext.signIn "alice" "wrong") Scenario.signed_in
      = (w', inr (mkError (login_config "alice" "wrong") (Some Scenario.unauthorized))) /\
    storage w' = storage Scenario.signed_in /\
    journal w' = journal Scenario.signed_in /\
    network w' = network Scenario.signed_in ++ [login_config "alice" "wrong"] /\
    session w' = mkSession (user (session Scenario.signed_in)) false
                   (isSignedIn (session Scenario.signed_in)).
Proof.
  apply (signIn_login_failure Scenario.rejects_everything "alice" "wrong" Scenario.signed_in).
  reflexivity.
Defined.

(** ** Calls on the [api] instance *)

Section ApiCalls.
Context (srv : Transport).

(** The requests of a call on the instance: the request itself, as the
    request interceptor left it, then what the error handler sent. *)
Lemma api_request_network (c : Config) (w : World) :
  exists extra,
    network (run srv (api.request c) w).1 = network w ++ outgoing c w :: extra /\
    (extra = [] \/
     extra = [refresh_request (storage w !! "refreshToken")] \/
     exists refreshed,
       extra = [refresh_request (storage w !! "refreshToken");
                replay_request (mkError (outgoing c w)
                                  (srv (network w) (outgoing c w))) refreshed]).
Proof.
  rewrite run_api_request.
  destruct (settle (outgoing c w) _) as [response|error] eqn:Hsettle.
  { exists []. split; [reflexivity|by left]. }
  assert (Herror : error = mkError (outgoing c w) (srv (network w) (outgoing c w))).
  { unfold settle in Hsettle. destruct (srv _ _) as [r|]; [destruct (validateStatus _)|];
      by inversion Hsettle. }
  destruct (response_onRejected_network srv error (dispatch (outgoing c w) w))
    as (extra & Hnet & Hshape).
  exists extra. split.
  - rewrite Hnet. cbn [network dispatch]. by rewrite <- app_assoc.
  - cbn [storage dispatch] in Hshape. by rewrite <- Herror.
Qed.

(** X8. A call on the instance that is served, or that fails with anything
    but a 401 (no response, a 4xx or 5xx), is handed to the caller as it is:
    one request went out, and the storage, the journal of writes and the
    session are untouched.  Only a 401 can cost the user the stored tokens. *)
Theorem api_request_without_401_is_transparent (c : Config) (w : World) :
  (forall error,
     settle (outgoing c w) (srv (network w) (outgoing c w)) = inr error ->
     is_401 error = false) ->
  run srv (api.request c) w
  = (dispatch (outgoing c w) w, settle (outgoing c w) (srv (network w) (outgoing c w))).
Proof.
  intros Hnot401. rewrite run_api_request.
  destruct (settle (outgoing c w) _) as [response|error] eqn:Hsettle; [reflexivity|].
  rewrite run_response_onRejected, (Hnot401 error eq_refl). reflexivity.
Qed.

(** A 401, a stored refresh token, an accepted refresh: the run, in full. *)
Lemma run_api_request_refreshed
    (c : Config) (w : World) (rt : string) (r refreshed : Response) :
  let sent := outgoing c w in
  let refresh := refresh_request (Some rt) in
  let replay := set_Authorization ("Bearer " +:+ access_token (data refreshed)) sent in
  srv (network w) sent = Some r ->
  status r = 401 ->
  storage w !! "refreshToken" = Some rt ->
  rt <> "" ->
  settle refresh (srv (network w ++ [sent]) refresh) = inl refreshed ->
  run srv (api.request c) w
  = (dispatch replay
       (store "refreshToken" (refresh_token (data refreshed))
          (store "token" (access_token (data refreshed))
             (dispatch refresh (dispatch sent w)))),
     settle replay (srv (network w ++ [sent; refresh]) replay)).
Proof.
  intros sent refresh replay Hreply Hstatus Hstored Hne Hrefresh.
  assert (Htruthy : truthy (Some rt) = true).
  { simpl. destruct (String.eqb_spec rt ""); [contradiction|reflexivity]. }
  rewrite run_api_request. fold sent. rewrite Hreply.
  unfold settle at 1, validateStatus. rewrite Hstatus. cbn [Nat.leb Nat.ltb andb].
  rewrite run_response_onRejected. unfold is_401; cbn [response]. rewrite Hstatus.
  cbn [bool_decide decide_rel]. unfold refresh_outcome.
  cbn [storage network dispatch]. rewrite Hstored, Htruthy. fold refresh.
  rewrite Hrefresh. cbn zeta. unfold replay_request. cbn [config]. fold replay.
  cbn [network store dispatch]. rewrite <- !app_assoc. reflexivity.
Qed.

(** X9. Scenario 2 of the specification, for every request.  The request is
    answered 401, a non-empty refresh token is stored and the refresh call
    is accepted: the refresh call carries the stored refresh token, the new
    pair is stored, and the request is replayed once, identical to the one
    sent but for the [Authorization] header, which carries the new access
    token; what the caller gets is the outcome of the replay.  The session
    is untouched. *)
Theorem refresh_success_replays_with_new_token
    (c : Config) (w : World) (rt : string) (r refreshed : Response) :
  let sent := outgoing c w in
  let refresh := refresh_request (Some rt) in
  let replay := set_Authorization ("Bearer " +:+ access_token (data refreshed)) sent in
  srv (network w) sent = Some r ->
  status r = 401 ->
  storage w !! "refreshToken" = Some rt ->
  rt <> "" ->
  settle refresh (srv (network w ++ [sent]) refresh) = inl refreshed ->
  exists w',
    run srv (api.request c) w
      = (w', settle replay (srv (network w ++ [sent; refresh]) replay)) /\
    tokens w' = (Some (access_token (data refreshed)), Some (refresh_token (data refreshed))) /\
    network w' = network w ++ [sent; refresh; replay] /\
    session w' = session w /\
    headers refresh !! "Authorization" = Some ("Bearer " +:+ rt) /\
    headers replay !! "Authorization" = Some ("Bearer " +:+ access_token (data refreshed)) /\
    (method replay, baseURL replay, url replay, body replay)
      = (method c, baseURL c, url c, body c).
Proof.
  intros sent refresh replay Hreply Hstatus Hstored Hne Hrefresh.
  eexists. split.
  { apply (run_api_request_refreshed c w rt r refreshed Hreply Hstatus Hstored Hne Hrefresh). }
  split; [|split; [|split; [|split; [|split]]]].
  - unfold tokens. cbn. f_equal.
    + rewrite lookup_insert_ne by discriminate. apply lookup_insert_eq.
    + apply lookup_insert_eq.
  - cbn. by rewrite <- !app_assoc.
  - reflexivity.
  - apply lookup_insert_eq.
  - apply lookup_insert_eq.
  - unfold replay, sent, outgoing. by destruct (truthy (storage w !! "token")).
Qed.

(** X10. What a refresh stores is what the next call sends: after the
    exchange of X9, with a non-empty new access token, every later call on
    the instance goes out with [Authorization: Bearer <new access token>]. *)
Theorem request_after_refresh_carries_new_token
    (c next : Config) (w : World) (rt : string) (r refreshed : Response) :
  let sent := outgoing c w in
  let refresh := refresh_request (Some rt) in
  srv (network w) sent = Some r ->
  status r = 401 ->
  storage w !! "refreshToken" = Some rt ->
  rt <> "" ->
  settle refresh (srv (network w ++ [sent]) refresh) = inl refreshed ->
  access_token (data refreshed) <> "" ->
  let w' := (run srv (api.request c) w).1 in
  exists extra,
    network (run srv (api.request next) w').1
    = network w' ++ set_Authorization ("Bearer " +:+ access_token (data refreshed)) next :: extra.
Proof.
  intros sent refresh Hreply Hstatus Hstored Hne Hrefresh Hnew w'.
  assert (Htoken : storage w' !! "token" = Some (access_token (data refreshed))).
  { unfold w'.
    rewrite (run_api_request_refreshed c w rt r refreshed Hreply Hstatus Hstored Hne Hrefresh).
    cbn. rewrite lookup_insert_ne by discriminate. apply lookup_insert_eq. }
  destruct (api_request_network next w') as (extra & Hnet & _).
  exists extra. rewrite Hnet. do 2 f_equal.
  unfold outgoing. rewrite Htoken. simpl.
  destruct (String.eqb_spec (access_token (data refreshed)) ""); [contradiction|reflexivity].
Qed.

End ApiCalls.

(** X8 at a concrete input: the card request on a broken server. *)
Lemma api_request_without_401_is_transparent_witness :
  run Servers.broken (api.request Scenario.card) Scenario.signed_in
  = (dispatch (outgoing Scenario.card Scenario.signed_in) Scenario.signed_in,
     settle (outgoing Scenario.card Scenario.signed_in)
       (Servers.broken (network Scenario.signed_in)
          (outgoing Scenario.card Scenario.signed_in))).
Proof.
  apply (api_request_without_401_is_transparent Servers.broken Scenario.card Scenario.signed_in).
  intros error H. vm_compute in H. injection H as <-. reflexivity.
Defined.

(** X9 at a concrete input: scenario 2 of the specification. *)
Lemma refresh_success_replays_with_new_token_witness :
  exists w',
    run Servers.expired (api.request Scenario.card) Scenario.signed_in
      = (w', inl (Scenario.success Scenario.alice)) /\
    tokens w' = (Some "A2", Some "R2").
Proof.
  destruct (refresh_success_replays_with_new_token Servers.expired Scenario.card
              Scenario.signed_in "R1" Scenario.unauthorized (Scenario.minted "A2" "R2")
              eq_refl eq_refl eq_refl ltac:(discriminate) eq_refl)
    as (w' & Hrun & Htokens & _).
  exists w'. split; [exact Hrun|exact Htokens].
Defined.

(** X10 at a concrete input: the vendor list is fetched after scenario 2. *)
Lemma request_after_refresh_carries_new_token_witness :
  let w' := (run Servers.expired (api.request Scenario.card) Scenario.signed_in).1 in
  exists extra,
    network (run Servers.expired (api.request Scenario.vendors) w').1
    = network w' ++ set_Authorization ("Bearer " +:+ "A2") Scenario.vendors :: extra.
Proof.
  apply (request_after_refresh_carries_new_token Servers.expired Scenario.card Scenario.vendors
           Scenario.signed_in "R1" Scenario.unauthorized (Scenario.minted "A2" "R2"));
    first [reflexivity | discriminate].
Defined.

(** ** Logging out and what follows *)

Section LogoutPaths.
Context (srv : Transport).

(** X11. After [logout], however its own call ended, the next call on the
    instance goes out exactly as the facade built it: the request
    interceptor finds no token and adds no [Authorization] header. *)
Theorem request_after_logout_is_anonymous (w : World) (next : Config) :
  let w' := (run srv authService.logout w).1 in
  exists extra,
    network (run srv (api.request next) w').1 = network w' ++ next :: extra.
Proof.
  intros w'.
  pose proof (logout_clears_tokens srv w) as Hcleared. fold w' in Hcleared.
  destruct (api_request_network srv next w') as (extra & Hnet & _).
  exists extra. rewrite Hnet. do 2 f_equal.
  unfold outgoing. unfold cleared, tokens in Hcleared. injection Hcleared as -> _.
  reflexivity.
Qed.

(** X12. When the logout call is served, [signOut] resolves and the user is
    signed out: no profile, [isSignedIn] and [isLoading] false, both tokens
    removed, [token] first; the one request on the wire is the logout call,
    with the bearer token if one was stored. *)
Theorem signOut_success (w : World) (served : Response) :
  settle (outgoing logout_config w) (srv (network w) (outgoing logout_config w))
    = inl served ->
  exists w',
    run srv AuthContext.signOut w = (w', inl tt) /\
    session w' = mkSession None false false /\
    cleared w' /\
    network w' = network w ++ [outgoing logout_config w] /\
    journal w' = journal w ++ [WRemove "token"; WRemove "refreshToken"].
Proof.
  intros Hserved. eexists. split.
  { rewrite run_signOut. unfold authService.logout, api.post.
    rewrite run_try_finally, run_mbind, run_api_request.
    fold logout_config.
    change (outgoing logout_config (with_session (set_isLoading true) w))
      with (outgoing logout_config w).
    cbn [network with_session]. rewrite Hserved. reflexivity. }
  split; [reflexivity|]. split; [apply cleared_remove_both|].
  split; [reflexivity|]. cbn. by rewrite <- app_assoc.
Qed.

(** X13. [loadUserProfile] changes nothing of the session but the profile:
    [isLoading] and [isSignedIn] are as before; on success the profile is
    set, on failure the error is rethrown and the profile is the old one. *)
Theorem loadUserProfile_only_sets_user (w : World) :
  let '(w', outcome) := run srv AuthContext.loadUserProfile w in
  isLoading (session w') = isLoading (session w) /\
  isSignedIn (session w') = isSignedIn (session w) /\
  match outcome with
  | inl _ => is_Some (user (session w'))
  | inr _ => user (session w') = user (session w)
  end.
Proof.
  rewrite run_loadUserProfile.
  pose proof (api_request_session srv profile_config w) as Hsession.
  destruct (run srv (api.request profile_config) w) as [w1 [response|error]];
    cbn [fst] in Hsession; cbn; rewrite Hsession; repeat split. by eexists.
Qed.

End LogoutPaths.

(** X12 at a concrete input: a signed-in user signs out, the server is up. *)
Lemma signOut_success_witness :
  exists w',
    run Servers.healthy AuthContext.signOut Scenario.signed_in = (w', inl tt) /\
    session w' = mkSession None false false /\
    cleared w' /\
    network w' = network Scenario.signed_in ++ [outgoing logout_config Scenario.signed_in] /\
    journal w' = journal Scenario.signed_in ++ [WRemove "token"; WRemove "refreshToken"].
Proof.
  apply (signOut_success Servers.healthy Scenario.signed_in (Scenario.success Scenario.alice)).
  reflexivity.
Defined.

(** ** The token pair stays whole when operations do not interleave *)

Section WholePair.

Lemma partial_pair_storage (w w' : World) :
  storage w' = storage w -> partial_pair w' = partial_pair w.
Proof. unfold partial_pair. by intros ->. Qed.

Lemma cleared_is_whole (w : World) : cleared w -> partial_pair w = false.
Proof.
  unfold cleared, tokens, partial_pair. intros H. injection H as -> ->. reflexivity.
Qed.

Lemma partial_pair_removed (w : World) :
  partial_pair (remove "refreshToken" (remove "token" w)) = false.
Proof. apply cleared_is_whole, cleared_remove_both. Qed.

Lemma partial_pair_stored (a r : string) (w : World) :
  partial_pair (store "refreshToken" r (store "token" a w)) = false.
Proof.
  unfold partial_pair, store; cbn [storage].
  rewrite lookup_insert_ne by discriminate. rewrite !lookup_insert_eq. reflexivity.
Qed.

Lemma keeps_pair_step (w w1 w2 : World) :
  storage w1 = storage w \/ partial_pair w1 = false ->
  storage w2 = storage w1 \/ partial_pair w2 = false ->
  storage w2 = storage w \/ partial_pair w2 = false.
Proof.
  intros [H1|H1] [H2|H2]; auto.
  - left. congruence.
  - right. by rewrite (partial_pair_storage w1 w2 H2).
Qed.

Lemma keeps_pair_ret {R : Type} (r : R) : keeps_pair (mret r).
Proof. intros srv w. by left. Qed.

Lemma keeps_pair_throw {R : Type} (e : AxiosError) : keeps_pair (@Throw R e).
Proof. intros srv w. by left. Qed.

Lemma keeps_pair_bind {A B : Type} (p : Prog A) (f : A -> Prog B) :
  keeps_pair p -> (forall a, keeps_pair (f a)) -> keeps_pair (p ≫= f).
Proof.
  intros Hp Hf srv w. rewrite run_mbind. specialize (Hp srv w).
  destruct (run srv p w) as [w1 [a|e]]; [|exact Hp].
  exact (keeps_pair_step w w1 _ Hp (Hf a srv w1)).
Qed.

Lemma keeps_pair_try_catch {R : Type} (p : Prog R) (h : AxiosError -> Prog R) :
  keeps_pair p -> (forall e, keeps_pair (h e)) -> keeps_pair (try_catch p h).
Proof.
  intros Hp Hh srv w. rewrite run_try_catch. specialize (Hp srv w).
  destruct (run srv p w) as [w1 [a|e]]; [exact Hp|].
  exact (keeps_pair_step w w1 _ Hp (Hh e srv w1)).
Qed.

Lemma keeps_pair_try_finally {R : Type} (p : Prog R) (f : Prog unit) :
  keeps_pair p -> keeps_pair f -> keeps_pair (try_finally p f).
Proof.
  intros Hp Hf srv w. rewrite run_try_finally. specialize (Hp srv w).
  destruct (run srv p w) as [w1 outcome]. specialize (Hf srv w1).
  destruct (run srv f w1) as [w2 [[]|e]]; exact (keeps_pair_step w w1 w2 Hp Hf).
Qed.

Lemma keeps_pair_setUser (u : option Data) : keeps_pair (AuthContext.setUser u).
Proof. intros srv w. by left. Qed.

Lemma keeps_pair_setIsLoading (b : bool) : keeps_pair (AuthContext.setIsLoading b).
Proof. intros srv w. by left. Qed.

Lemma keeps_pair_setIsSignedIn (b : bool) : keeps_pair (AuthContext.setIsSignedIn b).
Proof. intros srv w. by left. Qed.

Lemma keeps_pair_isAuthenticated : keeps_pair authService.isAuthenticated.
Proof. intros srv w. by left. Qed.

Lemma keeps_pair_api_request (c : Config) : keeps_pair (api.request c).
Proof.
  intros srv w. rewrite run_api_request.
  destruct (settle _ _) as [response|error]; [by left|].
  rewrite run_response_onRejected.
  destruct (is_401 error); [|by left].
  destruct (refresh_outcome srv _) as [[refreshed|e]|]; cbn [fst]; right.
  - unfold partial_pair. cbn [storage dispatch].
    apply (partial_pair_stored _ _ (dispatch _ (dispatch (outgoing c w) w))).
  - apply partial_pair_removed.
  - apply partial_pair_removed.
Qed.

Lemma keeps_pair_login (username password : string) :
  keeps_pair (authService.login username password).
Proof.
  intros srv w. rewrite run_login. cbn zeta.
  destruct (settle _ _) as [response|error]; [right|by left].
  apply partial_pair_stored.
Qed.

Lemma keeps_pair_logout : keeps_pair authService.logout.
Proof.
  intros srv w. right. apply cleared_is_whole, logout_clears_tokens.
Qed.

Lemma keeps_pair_loadUserProfile : keeps_pair AuthContext.loadUserProfile.
Proof.
  apply keeps_pair_try_catch; [|intros e; apply keeps_pair_throw].
  apply keeps_pair_bind; [|intros d; apply keeps_pair_setUser].
  apply keeps_pair_bind; [apply keeps_pair_api_request|intros r; apply keeps_pair_ret].
Qed.

Lemma keeps_pair_signIn (username password : string) :
  keeps_pair (AuthContext.signIn username password).
Proof.
  apply keeps_pair_try_finally; [|apply keeps_pair_setIsLoading].
  apply keeps_pair_try_catch; [|intros e; apply keeps_pair_throw].
  apply keeps_pair_bind; [apply keeps_pair_setIsLoading|intros _].
  apply keeps_pair_bind; [apply keeps_pair_login|intros _].
  apply keeps_pair_bind; [apply keeps_pair_loadUserProfile|intros _].
  apply keeps_pair_setIsSignedIn.
Qed.

(** X14. As long as nothing else runs in between, every operation of the
    session layer keeps the stored token pair whole: a call on the [api]
    instance, [signIn], [signUp], [signOut] and the bootstrap each leave the
    storage as it was, or with both tokens present, or with both absent.  A
    store that holds both tokens or neither never ends up with exactly one. *)
Theorem operations_keep_token_pair_whole (srv : Transport) (w : World) :
  partial_pair w = false ->
  (forall c, partial_pair (run srv (api.request c) w).1 = false) /\
  (forall username password,
     partial_pair (run srv (AuthContext.signIn username password) w).1 = false) /\
  (forall userData, partial_pair (run srv (AuthContext.signUp userData) w).1 = false) /\
  partial_pair (run srv AuthContext.signOut w).1 = false /\
  partial_pair (run srv AuthContext.bootstrapAsync w).1 = false.
Proof.
  intros Hwhole.
  assert (Huse : forall R (p : Prog R), keeps_pair p -> partial_pair (run srv p w).1 = false).
  { intros R p Hp. destruct (Hp srv w) as [H|H]; [|exact H].
    by rewrite (partial_pair_storage w _ H). }
  split; [|split; [|split; [|split]]].
  - intros c. apply Huse, keeps_pair_api_request.
  - intros username password. apply Huse, keeps_pair_signIn.
  - intros userData. apply Huse.
    apply keeps_pair_try_finally; [|apply keeps_pair_setIsLoading].
    apply keeps_pair_try_catch; [|intros e; apply keeps_pair_throw].
    apply keeps_pair_bind; [apply keeps_pair_setIsLoading|intros _].
    apply keeps_pair_bind; [|intros _; apply keeps_pair_signIn].
    apply keeps_pair_bind; [apply keeps_pair_api_request|intros r; apply keeps_pair_ret].
  - apply Huse.
    apply keeps_pair_try_finally; [|apply keeps_pair_setIsLoading].
    apply keeps_pair_try_catch; [|intros e; apply keeps_pair_throw].
    apply keeps_pair_bind; [apply keeps_pair_setIsLoading|intros _].
    apply keeps_pair_bind; [apply keeps_pair_logout|intros _].
    apply keeps_pair_bind; [apply keeps_pair_setUser|intros _].
    apply keeps_pair_setIsSignedIn.
  - apply Huse.
    apply keeps_pair_try_finally; [|apply keeps_pair_setIsLoading].
    apply keeps_pair_try_catch; [|intros e; apply keeps_pair_ret].
    apply keeps_pair_bind; [apply keeps_pair_isAuthenticated|intros [|]].
    + apply keeps_pair_try_catch.
      * apply keeps_pair_bind; [apply keeps_pair_loadUserProfile|intros _].
        apply keeps_pair_setIsSignedIn.
      * intros e. apply keeps_pair_bind; [apply keeps_pair_logout|intros _].
        apply keeps_pair_setIsSignedIn.
    + apply keeps_pair_ret.
Qed.

End WholePair.

(** X14 at a concrete input: a signed-in device, every reply a 401. *)
Lemma operations_keep_token_pair_whole_witness :
  partial_pair (run Scenario.rejects_everything AuthContext.signOut Scenario.signed_in).1 = false /\
  partial_pair (run Scenario.rejects_everything AuthContext.bootstrapAsync Scenario.signed_in).1
    = false.
Proof.
  destruct (operations_keep_token_pair_whole Scenario.rejects_everything Scenario.signed_in
              eq_refl) as (_ & _ & _ & HsignOut & Hbootstrap).
  split; [exact HsignOut|exact Hbootstrap].
Defined.

(** ** Signing up, end to end *)

Section SignUpPath.
Context (srv : Transport).

(** X15. When the registration is served, the login with the same
    credentials is accepted and the profile request is served, [signUp]
    resolves with the new user signed in.  Three requests went out, in this
    order: the registration, the login carrying [userData.username] and
    [userData.password], and the profile request. *)
Theorem signUp_success
    (userData : UserData) (w : World) (registered minted profile : Response) :
  let sent := outgoing (register_config userData) w in
  let wr := dispatch sent (with_session (set_isLoading true) w) in
  let login := login_config (username userData) (password userData) in
  let w1 := store "refreshToken" (refresh_token (data minted))
              (store "token" (access_token (data minted))
                 (dispatch login (with_session (set_isLoading true) wr))) in
  settle sent (srv (network w) sent) = inl registered ->
  settle login (srv (network wr) login) = inl minted ->
  settle (outgoing profile_config w1) (srv (network w1) (outgoing profile_config w1))
    = inl profile ->
  exists w',
    run srv (AuthContext.signUp userData) w = (w', inl tt) /\
    session w' = mkSession (Some (data profile)) false true /\
    tokens w' = (Some (access_token (data minted)), Some (refresh_token (data minted))) /\
    network w' = network w ++ [sent; login; outgoing profile_config w1].
Proof.
  intros sent wr login w1 Hregistered Hlogin Hprofile.
  eexists. split.
  { unfold AuthContext.signUp.
    rewrite run_try_finally, run_rethrow, run_setIsLoading_then, run_mbind.
    unfold authService.register, api.post. rewrite run_mbind, run_api_request.
    fold (register_config userData).
    change (outgoing (register_config userData) (with_session (set_isLoading true) w))
      with sent.
    cbn [network with_session]. rewrite Hregistered. fold wr.
    unfold mret at 1, Prog_mret. cbn [run].
    unfold AuthContext.signIn.
    rewrite run_try_finally, run_rethrow, run_setIsLoading_then, run_mbind, run_login.
    cbn [network with_session]. fold login. rewrite Hlogin. cbn zeta. fold w1.
    rewrite run_mbind, run_loadUserProfile, run_api_request, Hprofile.
    rewrite run_setIsSignedIn, !run_setIsLoading. reflexivity. }
  split; [reflexivity|]. split.
  - unfold tokens. cbn [storage with_session dispatch]. unfold w1, store. cbn [storage].
    rewrite (lookup_insert_ne _ "refreshToken" "token") by discriminate.
    by rewrite !lookup_insert_eq.
  - cbn [network with_session dispatch]. unfold w1 at 1, wr. cbn.
    by rewrite <- !app_assoc.
Qed.

End SignUpPath.

(** X15 at a concrete input: bob signs up on a healthy server. *)
Lemma signUp_success_witness :
  exists w',
    run Servers.healthy (AuthContext.signUp Scenario.bob) Scenario.signed_out = (w', inl tt) /\
    session w' = mkSession (Some Scenario.alice) false true /\
    tokens w' = (Some "A1", Some "R1") /\
    length (network w') = 3.
Proof.
  destruct (signUp_success Servers.healthy Scenario.bob Scenario.signed_out
              (Scenario.success Scenario.alice) (Scenario.minted "A1" "R1")
              (Scenario.success Scenario.alice) eq_refl eq_refl eq_refl)
    as (w' & Hrun & Hsession & Htokens & Hnetwork).
  exists w'. split; [exact Hrun|]. split; [exact Hsession|]. split; [exact Htokens|].
  rewrite Hnetwork. reflexivity.
Defined.

(** ** Image addresses *)

Section Urls.

Lemma list_ascii_of_string_app (s t : string) :
  String.list_ascii_of_string (s +:+ t)
  = String.list_ascii_of_string s ++ String.list_ascii_of_string t.
Proof. induction s as [|a s IH]; simpl; [reflexivity|by rewrite IH]. Qed.

Lemma append_inj_r (a b s : string) : a +:+ s = b +:+ s -> a = b.
Proof.
  intros H. apply (f_equal String.list_ascii_of_string) in H.
  rewrite !list_ascii_of_string_app in H. apply app_inv_tail in H.
  apply (f_equal String.string_of_list_ascii) in H.
  by rewrite !String.string_of_list_ascii_of_string in H.
Qed.

Lemma append_inj_l (p a b : string) : p +:+ a = p +:+ b -> a = b.
Proof. induction p as [|c p IH]; simpl; [done|]. intros [= H]. by apply IH. Qed.

Lemma front_back_differ (a b : string) : a +:+ "/images/front" <> b +:+ "/images/back".
Proof.
  intros H. apply (f_equal String.list_ascii_of_string) in H.
  rewrite !list_ascii_of_string_app in H.
  apply (f_equal last) in H.
  change (String.list_ascii_of_string "/images/front")
    with (String.list_ascii_of_string "/images/fron" ++ [Ascii.ascii_of_nat 116]) in H.
  change (String.list_ascii_of_string "/images/back")
    with (String.list_ascii_of_string "/images/bac" ++ [Ascii.ascii_of_nat 107]) in H.
  rewrite !app_assoc, !last_snoc in H. discriminate H.
Qed.

(** X16. The image addresses are injective: two vendors never share a logo
    address, and two card images share an address only if they are the same
    side of the same card. *)
Theorem image_urls_are_injective :
  (forall v1 v2, vendorService.getVendorLogo v1 = vendorService.getVendorLogo v2 -> v1 = v2) /\
  (forall c1 c2 t1 t2,
     giftCardService.getGiftCardImage c1 t1 = giftCardService.getGiftCardImage c2 t2 ->
     c1 = c2 /\ t1 = t2).
Proof.
  split.
  - intros v1 v2 H. unfold vendorService.getVendorLogo in H.
    apply append_inj_l, append_inj_l in H. by apply append_inj_r in H.
  - intros c1 c2 t1 t2 H. unfold giftCardService.getGiftCardImage in H.
    unfold mret, Prog_mret in H.
    apply (f_equal (fun p : Prog string => match p with Ret u => u | _ => "" end)) in H.
    cbv beta iota in H. apply append_inj_l, append_inj_l in H.
    destruct t1, t2; cbn [ImageType_string] in H.
    + split; [|reflexivity]. by apply (append_inj_r _ _ "/images/front").
    + by destruct (front_back_differ c1 c2).
    + symmetry in H. by destruct (front_back_differ c2 c1).
    + split; [|reflexivity]. by apply (append_inj_r _ _ "/images/back").
Qed.

End Urls.

(** X16 at a concrete input. *)
Lemma image_urls_are_injective_witness :
  "7" = "7" /\ ("42" = "42" /\ front = front).
Proof.
  split.
  - apply (proj1 image_urls_are_injective "7" "7"). reflexivity.
  - apply (proj2 image_urls_are_injective "42" "42" front front). reflexivity.
Defined.

(** ** The login form *)

(** X17. [validate] of the login screen accepts exactly the forms with a
    non-empty username and a non-empty password, and the error object names
    exactly the fields that are empty, each with its message. *)
Theorem login_form_validation (username password : string) :
  (LoginScreen.validate username password = true <-> username <> "" /\ password <> "") /\
  LoginScreen.newErrors username password !! "username"
    = (if decide (username = "") then Some "Username is required" else None) /\
  LoginScreen.newErrors username password !! "password"
    = (if decide (password = "") then Some "Password is required" else None) /\
  (forall field, field <> "username" -> field <> "password" ->
     LoginScreen.newErrors username password !! field = None).
Proof.
  unfold LoginScreen.validate, LoginScreen.newErrors, truthy.
  destruct (String.eqb_spec username "") as [->|Hu], (String.eqb_spec password "") as [->|Hp];
    cbn [negb];
    match goal with
    | |- context [bool_decide ?P] =>
        let b := eval vm_compute in (bool_decide P) in
        replace (bool_decide P) with b by (vm_compute; reflexivity)
    end.
  - rewrite !(decide_True (P := "" = "")) by done.
    split; [split; [discriminate|by intros [[] _]]|].
    split; [rewrite lookup_insert_ne by discriminate; apply lookup_insert_eq|].
    split; [apply lookup_insert_eq|].
    intros field H1 H2. by rewrite !lookup_insert_ne, lookup_empty.
  - rewrite (decide_True (P := "" = "")), (decide_False (P := password = "")) by done.
    split; [split; [discriminate|by intros [[] _]]|].
    split; [apply lookup_insert_eq|]. split; [by rewrite lookup_insert_ne, lookup_empty|].
    intros field H1 H2. by rewrite lookup_insert_ne, lookup_empty.
  - rewrite (decide_False (P := username = "")), (decide_True (P := "" = "")) by done.
    split; [split; [discriminate|by intros [_ []]]|].
    split; [by rewrite lookup_insert_ne, lookup_empty|]. split; [apply lookup_insert_eq|].
    intros field H1 H2. by rewrite lookup_insert_ne, lookup_empty.
  - rewrite (decide_False (P := username = "")), (decide_False (P := password = "")) by done.
    split; [split; [done|reflexivity]|].
    split; [apply lookup_empty|]. split; [apply lookup_empty|].
    intros field H1 H2. apply lookup_empty.
Qed.

(** X17 at a concrete input. *)
Lemma login_form_validation_witness :
  LoginScreen.validate "alice" "Secret123" = true /\
  LoginScreen.newErrors "alice" "" !! "password" = Some "Password is required".
Proof.
  split.
  - apply (proj1 (login_form_validation "alice" "Secret123")). split; discriminate.
  - apply (proj1 (proj2 (proj2 (login_form_validation "alice" "")))).
Defined.

(** ** The service layer and the React state *)

Section Services.
Context (srv : Transport).

Lemma bind_data_session (p : Prog Response) (w : World) :
  session (run srv p w).1 = session w ->
  session (run srv (response ← p; mret (data response)) w).1 = session w.
Proof.
  intros H. rewrite run_mbind. by destruct (run srv p w) as [w1 [response|error]].
Qed.

(** X18. Nothing in api.ts changes the state of [AuthProvider]: after a
    call on the [api] instance and after each of the service functions, the
    profile, [isLoading] and [isSignedIn] are what they were, whatever the
    server answered and whatever happened to the tokens.  Only the functions
    of AuthContext.tsx sign the user in or out. *)
Theorem services_leave_session_alone (w : World) :
  (forall c, session (run srv (api.request c) w).1 = session w) /\
  (forall username password,
     session (run srv (authService.login username password) w).1 = session w) /\
  (forall userData, session (run srv (authService.register userData) w).1 = session w) /\
  session (run srv authService.logout w).1 = session w /\
  session (run srv authService.isAuthenticated w).1 = session w /\
  session (run srv userService.getUserProfile w).1 = session w /\
  (forall userData, session (run srv (userService.updateUserProfile userData) w).1 = session w) /\
  (forall cardId, session (run srv (giftCardService.getGiftCard cardId) w).1 = session w) /\
  (forall cardId imageType,
     run srv (giftCardService.getGiftCardImage cardId imageType) w
     = (w, inl (API_URL +:+ "/gift-cards/" +:+ cardId +:+ "/images/"
                  +:+ ImageType_string imageType))) /\
  (forall vendorId, session (run srv (vendorService.getVendor vendorId) w).1 = session w).
Proof.
  repeat split.
  - intros c. apply api_request_session.
  - intros username password. rewrite run_login. cbn zeta.
    by destruct (settle _ _).
  - intros userData. apply bind_data_session, api_request_session.
  - unfold authService.logout, api.post. rewrite run_try_finally, run_mbind.
    pose proof (api_request_session srv (mkConfig POST API_URL "/auth/logout" api.defaults NoBody)
                  w) as H.
    destruct (run srv (api.request _) w) as [w1 [?|?]]; exact H.
  - apply bind_data_session, api_request_session.
  - intros userData. apply bind_data_session, api_request_session.
  - intros cardId. apply bind_data_session, api_request_session.
  - intros vendorId. apply bind_data_session, api_request_session.
Qed.

End Services.
